(** * A shallow embedding of phosphor-tabs' [TabBar] (src/src/tabbar.ts)

    Title objects are identified by their object identity, modelled as a
    [nat]; a nullable [Title] reference is an [option Title]. JavaScript
    numbers used as indices are modelled as integers ([Z]); the [index | 0]
    coercion is the ToInt32 wrap-around written out. The DOM children of the
    content node are kept as a list of tab nodes with their client rectangle,
    offset and the style bits that [_releaseMouse] resets. *)

From Stdlib Require Import String Ascii ZArith List Bool Lia Permutation.
Import ListNotations.
Open Scope Z_scope.

(** ** Data model *)

Definition Title := nat.

(** The bounding client rect of a DOM node. *)
Record Rect := mkRect {
  rleft : Z; rtop : Z; rright : Z; rbottom : Z
}.

(** A tab node ([li]) of the content node. *)
Record TabNode := mkTabNode {
  node_rect : Rect;           (* getBoundingClientRect() *)
  node_offsetLeft : Z;        (* offsetLeft *)
  node_styleLeft : string;    (* style.left *)
  node_dragging : bool        (* classList contains DRAGGING_CLASS *)
}.

(** [class DragData]. The tab node is kept as its position among the
    content node's children; [tabLayout] and [contentRect] are never
    assigned by the source and stay [null]; the cursor override lives in
    [TabBar.cursorGrabbed]. *)
Record DragData := mkDragData {
  dd_title : option Title;
  dd_tab : nat;
  dd_tabIndex : Z;
  dd_tabLeft : Z;
  dd_tabWidth : Z;
  dd_tabPressX : Z;
  dd_tabTargetIndex : Z;
  dd_pressX : Z;
  dd_pressY : Z;
  dd_dragActive : bool;
  dd_detachRequested : bool
}.

Definition newDragData : DragData :=
  mkDragData None 0 (-1) (-1) (-1) (-1) (-1) (-1) (-1) false false.

(** The state of one [TabBar] instance together with the parts of its
    environment it mutates. *)
Record TabBar := mkTabBar {
  titles : list Title;             (* _titles *)
  currentTitle : option Title;     (* currentTitleProperty's stored value *)
  dirty : bool;                    (* _dirty *)
  tabsMovable : bool;              (* _tabsMovable *)
  dragData : option DragData;      (* _dragData *)
  subs : list Title;               (* titles whose [changed] is connected to _onTitleChanged *)
  docListeners : bool;             (* document capture listeners for mouseup/mousemove *)
  updateRequested : bool;          (* a pending 'update-request' message *)
  children : list TabNode;         (* contentNode.children *)
  barDragging : bool;              (* the bar has DRAGGING_CLASS *)
  cursorGrabbed : bool             (* the cursor override is installed *)
}.

(** The signals a [TabBar] emits. *)
Inductive Signal :=
| CurrentChanged (oldValue newValue : option Title)
| TabCloseRequested (title : Title).

(** Observable effects of an operation, in order. *)
Inductive Output :=
| PreventDefault
| StopPropagation
| Emit (sg : Signal).

(** Where an event's target lies: inside the close icon (the last child)
    of the tab node at an index, elsewhere inside a tab node, or elsewhere. *)
Inductive Target :=
| TgtCloseIcon (i : nat)
| TgtTab (i : nat)
| TgtOther.

Inductive EventType := Click | MouseDown | MouseMove | MouseUp | OtherEvent.

Record MouseEvent := mkMouseEvent {
  etype : EventType;
  button : Z;
  clientX : Z;
  clientY : Z;
  target : Target
}.

(** ** A state, error and output monad *)

Inductive Exc (A : Type) := Ok (a : A) | TypeError.
Arguments Ok {A} a.
Arguments TypeError {A}.

Definition M (A : Type) := TabBar -> Exc A * TabBar * list Output.

Definition ret {A} (a : A) : M A := fun s => (Ok a, s, []).

Definition bind {A B} (m : M A) (k : A -> M B) : M B :=
  fun s =>
    match m s with
    | (Ok a, s1, o1) => let '(r, s2, o2) := k a s1 in (r, s2, o1 ++ o2)
    | (TypeError, s1, o1) => (TypeError, s1, o1)
    end.

Notation "x <- m ;; k" := (bind m (fun x => k))
  (at level 61, m at next level, right associativity).
Notation "m ;; k" := (bind m (fun _ => k))
  (at level 61, right associativity).

Definition get : M TabBar := fun s => (Ok s, s, []).
Definition put (s : TabBar) : M unit := fun _ => (Ok tt, s, []).
Definition modify (f : TabBar -> TabBar) : M unit := fun s => (Ok tt, f s, []).
Definition out (o : Output) : M unit := fun s => (Ok tt, s, [o]).
Definition throw {A} : M A := fun s => (TypeError, s, []).

(** Field updates. *)
Definition set_titles (l : list Title) (s : TabBar) : TabBar :=
  mkTabBar l s.(currentTitle) s.(dirty) s.(tabsMovable) s.(dragData) s.(subs)
    s.(docListeners) s.(updateRequested) s.(children) s.(barDragging) s.(cursorGrabbed).
Definition set_currentTitle (v : option Title) (s : TabBar) : TabBar :=
  mkTabBar s.(titles) v s.(dirty) s.(tabsMovable) s.(dragData) s.(subs)
    s.(docListeners) s.(updateRequested) s.(children) s.(barDragging) s.(cursorGrabbed).
Definition set_dirty (b : bool) (s : TabBar) : TabBar :=
  mkTabBar s.(titles) s.(currentTitle) b s.(tabsMovable) s.(dragData) s.(subs)
    s.(docListeners) s.(updateRequested) s.(children) s.(barDragging) s.(cursorGrabbed).
Definition set_dragData (d : option DragData) (s : TabBar) : TabBar :=
  mkTabBar s.(titles) s.(currentTitle) s.(dirty) s.(tabsMovable) d s.(subs)
    s.(docListeners) s.(updateRequested) s.(children) s.(barDragging) s.(cursorGrabbed).
Definition set_subs (l : list Title) (s : TabBar) : TabBar :=
  mkTabBar s.(titles) s.(currentTitle) s.(dirty) s.(tabsMovable) s.(dragData) l
    s.(docListeners) s.(updateRequested) s.(children) s.(barDragging) s.(cursorGrabbed).
Definition set_docListeners (b : bool) (s : TabBar) : TabBar :=
  mkTabBar s.(titles) s.(currentTitle) s.(dirty) s.(tabsMovable) s.(dragData) s.(subs)
    b s.(updateRequested) s.(children) s.(barDragging) s.(cursorGrabbed).
Definition set_updateRequested (b : bool) (s : TabBar) : TabBar :=
  mkTabBar s.(titles) s.(currentTitle) s.(dirty) s.(tabsMovable) s.(dragData) s.(subs)
    s.(docListeners) b s.(children) s.(barDragging) s.(cursorGrabbed).
Definition set_children (c : list TabNode) (s : TabBar) : TabBar :=
  mkTabBar s.(titles) s.(currentTitle) s.(dirty) s.(tabsMovable) s.(dragData) s.(subs)
    s.(docListeners) s.(updateRequested) c s.(barDragging) s.(cursorGrabbed).
Definition set_barDragging (b : bool) (s : TabBar) : TabBar :=
  mkTabBar s.(titles) s.(currentTitle) s.(dirty) s.(tabsMovable) s.(dragData) s.(subs)
    s.(docListeners) s.(updateRequested) s.(children) b s.(cursorGrabbed).
Definition set_cursorGrabbed (b : bool) (s : TabBar) : TabBar :=
  mkTabBar s.(titles) s.(currentTitle) s.(dirty) s.(tabsMovable) s.(dragData) s.(subs)
    s.(docListeners) s.(updateRequested) s.(children) s.(barDragging) b.

(** ** JavaScript helpers *)

(** [x | 0]: ToInt32 on an integral number. *)
Definition toInt32 (x : Z) : Z :=
  let m := x mod 2 ^ 32 in
  if m >=? 2 ^ 31 then m - 2 ^ 32 else m.

(** [array[i]]: [undefined] ([None]) out of range. *)
Definition at_ {A} (l : list A) (i : Z) : option A :=
  if i <? 0 then None else nth_error l (Z.to_nat i).

(** [array.indexOf(x)]. *)
Fixpoint indexOf (l : list Title) (x : Title) : Z :=
  match l with
  | [] => -1
  | y :: l' =>
      if Nat.eqb y x then 0
      else let k := indexOf l' x in if k =? -1 then -1 else k + 1
  end.

(** [arrays.insert(array, index, value)] from phosphor-arrays. *)
Definition arrays_insert {A} (l : list A) (index : Z) (v : A) : list A :=
  let j := Z.to_nat (Z.max 0 (Z.min index (Z.of_nat (length l)))) in
  firstn j l ++ v :: skipn j l.

(** [arrays.removeAt(array, index)]: the removed value and the new array. *)
Definition arrays_removeAt {A} (l : list A) (index : Z) : option A * list A :=
  if (index <? 0) || (index >=? Z.of_nat (length l)) then (None, l)
  else let j := Z.to_nat index in (nth_error l j, firstn j l ++ skipn (S j) l).

(** [arrays.move(array, fromIndex, toIndex)]: shifts the elements between
    the two positions and stores the moved value at [toIndex]. *)
Definition arrays_move {A} (l : list A) (i j : Z) : list A :=
  let len := Z.of_nat (length l) in
  if (i <? 0) || (i >=? len) || (j <? 0) || (j >=? len) then l
  else match nth_error l (Z.to_nat i) with
       | None => l
       | Some v =>
           let rest := firstn (Z.to_nat i) l ++ skipn (S (Z.to_nat i)) l in
           firstn (Z.to_nat j) rest ++ v :: skipn (Z.to_nat j) rest
       end.

(** [title.changed.connect(this._onTitleChanged, this)]: a connection that
    already exists is not added twice. *)
Definition connect (t : Title) (l : list Title) : list Title :=
  if existsb (Nat.eqb t) l then l else l ++ [t].

(** [title.changed.disconnect(this._onTitleChanged, this)]. *)
Definition disconnect (t : Title) (l : list Title) : list Title :=
  filter (fun u => negb (Nat.eqb u t)) l.

(** [hitTest(node, x, y)] from phosphor-domutil. *)
Definition hitTest (n : TabNode) (x y : Z) : bool :=
  let r := n.(node_rect) in
  (r.(rleft) <=? x) && (x <? r.(rright)) && (r.(rtop) <=? y) && (y <? r.(rbottom)).

(** ** The [TabBar] methods *)

Definition titleCount (s : TabBar) : Z := Z.of_nat (length s.(titles)).
Definition titleAt (s : TabBar) (index : Z) : option Title := at_ s.(titles) index.
Definition titleIndex (s : TabBar) (t : Title) : Z := indexOf s.(titles) t.

(** [Widget.update()]: posts a (coalesced) 'update-request' message. *)
Definition update : M unit := modify (set_updateRequested true).

(** [TabBarPrivate.coerceCurrentTitle]. *)
Definition coerceCurrentTitle (s : TabBar) (value : option Title) : option Title :=
  match value with
  | Some t => if negb (titleIndex s t =? -1) then Some t else None
  | None => None
  end.

Definition opt_eqb (a b : option Title) : bool :=
  match a, b with
  | Some x, Some y => Nat.eqb x y
  | None, None => true
  | _, _ => false
  end.

(** [currentTitleProperty.set(this, value)]: coerce, store, and when the
    stored value differs ([===]) from the old one run the [changed] handler
    ([onCurrentTitleChanged], i.e. [owner.update()]) and emit the [notify]
    signal [currentChanged]. *)
Definition setCurrentTitle (value : option Title) : M unit :=
  s <- get ;;
  let oldValue := s.(currentTitle) in
  let newValue := coerceCurrentTitle s value in
  modify (set_currentTitle newValue) ;;
  if opt_eqb oldValue newValue then ret tt
  else update ;; out (Emit (CurrentChanged oldValue newValue)).

(** [TabBar._releaseMouse]. *)
Definition releaseMouse_ : M unit :=
  s <- get ;;
  match s.(dragData) with
  | None => ret tt
  | Some data =>
      modify (set_dragData None) ;;
      modify (set_docListeners false) ;;
      if negb data.(dd_dragActive) then ret tt
      else
        modify (fun s => set_children
          (map (fun n => mkTabNode n.(node_rect) n.(node_offsetLeft) EmptyString
                                    n.(node_dragging)) s.(children)) s) ;;
        modify (set_cursorGrabbed false) ;;
        modify (fun s => set_children
          (map (fun '(k, n) =>
                  if Nat.eqb k data.(dd_tab)
                  then mkTabNode n.(node_rect) n.(node_offsetLeft) n.(node_styleLeft) false
                  else n)
               (combine (seq 0 (length s.(children))) s.(children))) s) ;;
        modify (set_barDragging false)
  end.

(** [TabBar.releaseMouse]. *)
Definition releaseMouse : M unit := releaseMouse_.

(** [TabBar.insertTitle]. *)
Definition insertTitle (index : Z) (title : Title) : M unit :=
  releaseMouse_ ;;
  s <- get ;;
  let n := titleCount s in
  let i := titleIndex s title in
  let j := Z.max 0 (Z.min (toInt32 index) n) in
  if negb (i =? -1) then
    let j := if j =? n then j - 1 else j in
    if i =? j then ret tt
    else
      modify (set_titles (arrays_move s.(titles) i j)) ;;
      modify (set_dirty true) ;;
      update
  else
    modify (set_titles (arrays_insert s.(titles) j title)) ;;
    modify (fun s => set_subs (connect title s.(subs)) s) ;;
    (match s.(currentTitle) with
     | None => setCurrentTitle (Some title)
     | Some _ => ret tt
     end) ;;
    modify (set_dirty true) ;;
    update.

(** [TabBar.addTitle]. *)
Definition addTitle (title : Title) : M unit :=
  s <- get ;; insertTitle (titleCount s) title.

(** [TabBar.removeTitleAt]. The reassignment
    [this._titles[i] || this._titles[i - 1]] picks the first defined value. *)
Definition removeTitleAt (index : Z) : M unit :=
  releaseMouse_ ;;
  s <- get ;;
  let i := toInt32 index in
  if (i <? 0) || (i >=? Z.of_nat (length s.(titles))) then ret tt
  else
    let '(removed, rest) := arrays_removeAt s.(titles) i in
    match removed with
    | None => ret tt
    | Some title =>
        modify (set_titles rest) ;;
        modify (fun s => set_subs (disconnect title s.(subs)) s) ;;
        s1 <- get ;;
        (if opt_eqb s1.(currentTitle) (Some title) then
           setCurrentTitle
             (match at_ rest i with
              | Some t => Some t
              | None => at_ rest (i - 1)
              end)
         else ret tt) ;;
        modify (set_dirty true) ;;
        update
    end.

(** [TabBar.removeTitle]. *)
Definition removeTitle (title : Title) : M unit :=
  s <- get ;; removeTitleAt (titleIndex s title).

(** [TabBar.clearTitles]: pops every title and disconnects its handler. *)
Fixpoint popAll (fuel : nat) : M unit :=
  match fuel with
  | O => ret tt
  | S fuel' =>
      s <- get ;;
      match rev s.(titles) with
      | [] => ret tt
      | title :: revRest =>
          modify (set_titles (rev revRest)) ;;
          modify (fun s => set_subs (disconnect title s.(subs)) s) ;;
          popAll fuel'
      end
  end.

Definition clearTitles : M unit :=
  releaseMouse_ ;;
  s <- get ;;
  popAll (length s.(titles)) ;;
  modify (set_dirty true) ;;
  update.

(** [TabBarPrivate.hitTestTabs]: the first tab node containing the point,
    or [-1]. *)
Fixpoint hitTestNodes (nodes : list TabNode) (x y : Z) (i : Z) : Z :=
  match nodes with
  | [] => -1
  | n :: rest => if hitTest n x y then i else hitTestNodes rest x y (i + 1)
  end.

Definition hitTestTabs (s : TabBar) (x y : Z) : Z := hitTestNodes s.(children) x y 0.

(** [TabBarPrivate.closeIconNode(owner, i).contains(target)]. *)
Definition closeIconContains (i : Z) (tgt : Target) : bool :=
  match tgt with
  | TgtCloseIcon k => Z.eqb (Z.of_nat k) i
  | _ => false
  end.

Section Events.

(** The current value of each title object's [closable] attribute. *)
Variable closable : Title -> bool.

(** [TabBar._evtClick]. Reading [title.closable] of an [undefined] title
    throws a [TypeError]. *)
Definition evtClick (event : MouseEvent) : M unit :=
  if negb (event.(button) =? 0) then ret tt
  else
    s <- get ;;
    let i := hitTestTabs s event.(clientX) event.(clientY) in
    if i <? 0 then ret tt
    else
      out PreventDefault ;;
      out StopPropagation ;;
      match at_ s.(titles) i with
      | None => throw
      | Some title =>
          if negb (closable title) then ret tt
          else if negb (closeIconContains i event.(target)) then ret tt
          else out (Emit (TabCloseRequested title))
      end.

(** [TabBar._evtMouseDown]. *)
Definition evtMouseDown (event : MouseEvent) : M unit :=
  if negb (event.(button) =? 0) then ret tt
  else
    s <- get ;;
    match s.(dragData) with
    | Some _ => ret tt
    | None =>
        let i := hitTestTabs s event.(clientX) event.(clientY) in
        if i <? 0 then ret tt
        else
          out PreventDefault ;;
          out StopPropagation ;;
          if closeIconContains i event.(target) then ret tt
          else
            let title := at_ s.(titles) i in
            (match at_ s.(children) i with
             | None => ret tt
             | Some tab =>
                 if s.(tabsMovable) then
                   let tabRect := tab.(node_rect) in
                   let data := mkDragData title (Z.to_nat i) i
                                 tab.(node_offsetLeft)
                                 (tabRect.(rright) - tabRect.(rleft))
                                 (event.(clientX) - tabRect.(rleft))
                                 (-1) event.(clientX) event.(clientY) false false in
                   modify (set_dragData (Some data)) ;;
                   modify (set_docListeners true)
                 else ret tt
             end) ;;
            setCurrentTitle title
    end.

(** [TabBar.handleEvent]: only 'click' and 'mousedown' are dispatched; the
    'mousemove' and 'mouseup' cases are commented out in the source. *)
Definition handleEvent (event : MouseEvent) : M unit :=
  match event.(etype) with
  | Click => evtClick event
  | MouseDown => evtMouseDown event
  | _ => ret tt
  end.

(** A sequence of DOM events delivered to the tab bar. *)
Fixpoint handleEvents (events : list MouseEvent) : M unit :=
  match events with
  | [] => ret tt
  | e :: rest => handleEvent e ;; handleEvents rest
  end.

End Events.

(** Projections of a run. *)
Definition run_result {A} (m : M A) (s : TabBar) : Exc A := fst (fst (m s)).
Definition run_state {A} (m : M A) (s : TabBar) : TabBar := snd (fst (m s)).
Definition run_log {A} (m : M A) (s : TabBar) : list Output := snd (m s).

(** ** Concrete tab bars *)

Definition emptyBar : TabBar :=
  mkTabBar [] None false false None [] false false [] false false.

(** A rendered tab node spanning [left, right) horizontally and [0, 20)
    vertically. *)
Definition tabNodeAt (left right : Z) : TabNode :=
  mkTabNode (mkRect left 0 right 20) left EmptyString false.

Definition titleA : Title := 1%nat.
Definition titleB : Title := 2%nat.
Definition titleC : Title := 3%nat.

(** [A] and [B] added to a fresh bar, movable tabs, rendered side by side. *)
Definition barAB : TabBar :=
  let s := run_state (addTitle titleA ;; addTitle titleB) emptyBar in
  set_children [tabNodeAt 0 50; tabNodeAt 50 100]
    (mkTabBar s.(titles) s.(currentTitle) s.(dirty) true s.(dragData) s.(subs)
       s.(docListeners) s.(updateRequested) s.(children) s.(barDragging)
       s.(cursorGrabbed)).

Definition leftEvent (ty : EventType) (x y : Z) (tgt : Target) : MouseEvent :=
  mkMouseEvent ty 0 x y tgt.

(** [TabBar._onTitleChanged]: a member title's attributes changed. *)
Definition onTitleChanged : M unit :=
  modify (set_dirty true) ;;
  update.

(** ** The render pass: [TabBarPrivate.updateTabs] and [updateZOrder]

    The render pass only touches the class lists, text and z-index of the
    content node's [li] children (their geometry is the browser's layout
    and is the [children] field above). A node's class attribute is kept
    as its DOM token set; assigning [className] parses the string into an
    ordered set of tokens split on ASCII whitespace, and [classList.add] /
    [classList.remove] edit that set. [style.zIndex] is kept as the integer
    written to it ([None] while unset). *)

Definition TAB_CLASS : string := "p-TabBar-tab"%string.
Definition TEXT_CLASS : string := "p-TabBar-tab-text"%string.
Definition ICON_CLASS : string := "p-TabBar-tab-icon"%string.
Definition CLOSE_CLASS : string := "p-TabBar-tab-close"%string.
Definition CURRENT_CLASS : string := "p-mod-current"%string.
Definition CLOSABLE_CLASS : string := "p-mod-closable"%string.

(** The attributes of a [Title] object read by the render pass. *)
Record TitleAttrs := mkTitleAttrs {
  ta_text : string;
  ta_icon : string;
  ta_className : string;
  ta_closable : bool
}.

Definition isAsciiWhitespace (c : ascii) : bool :=
  let n := nat_of_ascii c in
  (Nat.eqb n 9 || Nat.eqb n 10 || Nat.eqb n 12 || Nat.eqb n 13 || Nat.eqb n 32)%bool.

(** Splitting a string on ASCII whitespace; [cur] is the token read so far. *)
Fixpoint splitTokens (cur : string) (str : string) : list string :=
  match str with
  | EmptyString => if String.eqb cur EmptyString then [] else [cur]
  | String c rest =>
      if isAsciiWhitespace c
      then (if String.eqb cur EmptyString then [] else [cur]) ++ splitTokens EmptyString rest
      else splitTokens (String.append cur (String c EmptyString)) rest
  end.

(** The ordered-set parser keeps the first occurrence of each token. *)
Fixpoint dedupTokens (seen : list string) (l : list string) : list string :=
  match l with
  | [] => []
  | x :: l' =>
      if existsb (String.eqb x) seen then dedupTokens seen l'
      else x :: dedupTokens (x :: seen) l'
  end.

(** [node.className = str]. *)
Definition parseClassName (str : string) : list string :=
  dedupTokens [] (splitTokens EmptyString str).

(** [node.classList.add(tok)] and [node.classList.remove(tok)]. *)
Definition classList_add (tok : string) (cls : list string) : list string :=
  if existsb (String.eqb tok) cls then cls else cls ++ [tok].
Definition classList_remove (tok : string) (cls : list string) : list string :=
  filter (fun x => negb (String.eqb x tok)) cls.

(** The rendered parts of a tab node and of its three spans. *)
Record TabView := mkTabView {
  tv_classes : list string;       (* the li's class list *)
  tv_iconClasses : list string;   (* first span *)
  tv_textClasses : list string;   (* second span *)
  tv_text : string;               (* second span's textContent *)
  tv_closeClasses : list string;  (* last span: the close icon *)
  tv_zIndex : option Z            (* the li's style.zIndex *)
}.

(** [TabBarPrivate.createTabNode]. *)
Definition createTabNode : TabView :=
  mkTabView [] [] (parseClassName TEXT_CLASS) EmptyString (parseClassName CLOSE_CLASS) None.

(** [TabBarPrivate.updateTabNode]; an empty string is falsy. *)
Local Open Scope string_scope.
Definition updateTabNode (node : TabView) (title : TitleAttrs) : TabView :=
  let suffix := if title.(ta_closable) then String.append " " CLOSABLE_CLASS
                else EmptyString in
  let cls := if String.eqb title.(ta_className) EmptyString
             then String.append TAB_CLASS suffix
             else String.append TAB_CLASS
                    (String.append " " (String.append title.(ta_className) suffix)) in
  let icon := if String.eqb title.(ta_icon) EmptyString
              then ICON_CLASS
              else String.append ICON_CLASS (String.append " " title.(ta_icon)) in
  mkTabView (parseClassName cls) (parseClassName icon) node.(tv_textClasses)
    title.(ta_text) node.(tv_closeClasses) node.(tv_zIndex).
Local Close Scope string_scope.

(** The loop body of [TabBarPrivate.updateZOrder] for the node at [i]. *)
Definition zOrderNode (count : Z) (current : option Title) (i : nat) (t : Title)
    (node : TabView) : TabView :=
  if opt_eqb (Some t) current
  then mkTabView (classList_add CURRENT_CLASS node.(tv_classes)) node.(tv_iconClasses)
         node.(tv_textClasses) node.(tv_text) node.(tv_closeClasses) (Some count)
  else mkTabView (classList_remove CURRENT_CLASS node.(tv_classes)) node.(tv_iconClasses)
         node.(tv_textClasses) node.(tv_text) node.(tv_closeClasses)
         (Some (count - Z.of_nat i - 1)).

(** The loop of [updateZOrder] over [i < count]; a missing node
    ([children[i]] undefined) makes [node.classList] throw ([None]). *)
Fixpoint zOrderLoop (count : Z) (current : option Title) (i : nat)
    (ts : list Title) (nodes : list TabView) : option (list TabView) :=
  match ts, nodes with
  | [], _ => Some nodes
  | _ :: _, [] => None
  | t :: ts', n :: nodes' =>
      match zOrderLoop count current (S i) ts' nodes' with
      | Some rest => Some (zOrderNode count current i t n :: rest)
      | None => None
      end
  end.

(** [TabBarPrivate.updateZOrder]. *)
Definition updateZOrder (s : TabBar) (nodes : list TabView) : option (list TabView) :=
  zOrderLoop (titleCount s) s.(currentTitle) O s.(titles) nodes.

(** [TabBarPrivate.updateTabs]: trim or extend the nodes to the title count,
    rewrite every node from its title, then update the Z order. *)
Definition updateTabs (attrs : Title -> TitleAttrs) (s : TabBar) (nodes : list TabView)
    : option (list TabView) :=
  let count := length s.(titles) in
  let trimmed := firstn count nodes in
  let filled := trimmed ++ repeat createTabNode (count - length trimmed) in
  let updated := map (fun '(n, t) => updateTabNode n (attrs t)) (combine filled s.(titles)) in
  updateZOrder s updated.

(** [TabBar.onUpdateRequest]. *)
Definition onUpdateRequest (attrs : Title -> TitleAttrs) (s : TabBar) (nodes : list TabView)
    : option (TabBar * list TabView) :=
  if s.(dirty) then
    match updateTabs attrs s nodes with
    | Some nodes' => Some (set_dirty false s, nodes')
    | None => None
    end
  else
    match updateZOrder s nodes with
    | Some nodes' => Some (s, nodes')
    | None => None
    end.

(** ** State invariants *)

(** [currentTitle] is [null] or a member of the collection. *)
Definition currentValid (s : TabBar) : Prop :=
  match s.(currentTitle) with
  | None => True
  | Some c => In c s.(titles)
  end.

(** Exactly the members have their [changed] signal connected. *)
Definition subsMatch (s : TabBar) : Prop :=
  forall t, In t s.(subs) <-> In t s.(titles).


(** ** Lemmas on the model *)

Lemma releaseMouse_eq : forall s,
  releaseMouse_ s = (Ok tt, run_state releaseMouse_ s, []).
Proof.
  intros s. unfold run_state, releaseMouse_, bind, get, modify, ret.
  destruct (dragData s) as [d|]; [|reflexivity].
  destruct (dd_dragActive d); reflexivity.
Qed.

Lemma releaseMouse_frame : forall s,
  let s1 := run_state releaseMouse_ s in
  titles s1 = titles s /\ currentTitle s1 = currentTitle s /\ dirty s1 = dirty s /\
  tabsMovable s1 = tabsMovable s /\ subs s1 = subs s /\
  updateRequested s1 = updateRequested s /\ dragData s1 = None.
Proof.
  intros s. unfold run_state, releaseMouse_, bind, get, modify, ret.
  destruct (dragData s) as [d|] eqn:E.
  - destruct (dd_dragActive d); simpl; repeat split.
  - simpl; repeat split; auto.
Qed.


Lemma releaseMouse_none : forall s,
  dragData s = None -> run_state releaseMouse_ s = s.
Proof.
  intros s H. unfold run_state, releaseMouse_, bind, get, ret. now rewrite H.
Qed.

Lemma indexOf_notin : forall l x, ~ In x l -> indexOf l x = -1.
Proof.
  induction l as [|y l IH]; intros x H; simpl; [reflexivity|].
  destruct (Nat.eqb_spec y x) as [->|Hne].
  - exfalso; apply H; now left.
  - rewrite IH by (intro; apply H; now right). reflexivity.
Qed.

Lemma indexOf_range : forall l x, indexOf l x = -1 \/ 0 <= indexOf l x.
Proof.
  induction l as [|y l IH]; intros x; simpl; [now left|].
  destruct (Nat.eqb y x); [right; lia|].
  destruct (Z.eqb_spec (indexOf l x) (-1)); [now left|].
  destruct (IH x); [contradiction|right; lia].
Qed.

Lemma indexOf_in : forall l x, indexOf l x = -1 -> ~ In x l.
Proof.
  induction l as [|y l IH]; intros x H Hin; simpl in *; [assumption|].
  destruct (Nat.eqb_spec y x) as [->|Hne]; [discriminate|].
  destruct (Z.eqb_spec (indexOf l x) (-1)) as [E|E].
  - destruct Hin as [->|Hin]; [now apply Hne|]. now apply (IH x).
  - destruct (indexOf_range l x); [contradiction|lia].
Qed.

Lemma indexOf_app_notin : forall a b x,
  ~ In x a -> indexOf (a ++ x :: b) x = Z.of_nat (length a).
Proof.
  induction a as [|y a IH]; intros b x H; simpl.
  - now rewrite Nat.eqb_refl.
  - destruct (Nat.eqb_spec y x) as [->|Hne]; [exfalso; apply H; now left|].
    rewrite IH by (intro; apply H; now right).
    destruct (Z.eqb_spec (Z.of_nat (length a)) (-1)); lia.
Qed.

Lemma indexOf_nth : forall l x, indexOf l x <> -1 ->
  exists k, indexOf l x = Z.of_nat k /\ nth_error l k = Some x.
Proof.
  induction l as [|y l IH]; intros x H; simpl in *; [contradiction|].
  destruct (Nat.eqb_spec y x) as [->|Hne]; [exists O; auto|].
  destruct (Z.eqb_spec (indexOf l x) (-1)) as [E|E]; [contradiction|].
  destruct (IH x E) as [k [Hk Hn]]. exists (S k). split; [lia|exact Hn].
Qed.

Lemma nth_error_split_at : forall {A} (l : list A) k x,
  nth_error l k = Some x -> l = firstn k l ++ x :: skipn (S k) l.
Proof.
  intros A l; induction l as [|y l IH]; intros [|k] x H; simpl in *; try discriminate.
  - now injection H as ->.
  - f_equal. now apply IH.
Qed.

Lemma firstn_skipn_length_le : forall {A} (l : list A) k,
  (k <= length l)%nat -> length (firstn k l) = k.
Proof. intros. rewrite length_firstn. lia. Qed.

Lemma opt_eqb_eq : forall a b, opt_eqb a b = true <-> a = b.
Proof.
  intros [a|] [b|]; simpl; split; intro H; try discriminate; auto.
  - now apply Nat.eqb_eq in H as ->.
  - injection H as ->. apply Nat.eqb_refl.
Qed.

Lemma coerce_member : forall s t, In t (titles s) -> coerceCurrentTitle s (Some t) = Some t.
Proof.
  intros s t H. unfold coerceCurrentTitle, titleIndex.
  destruct (Z.eqb_spec (indexOf (titles s) t) (-1)) as [E|E]; [|reflexivity].
  exfalso. exact (indexOf_in _ _ E H).
Qed.

Lemma coerce_nonmember : forall s t, ~ In t (titles s) -> coerceCurrentTitle s (Some t) = None.
Proof.
  intros s t H. unfold coerceCurrentTitle, titleIndex. now rewrite indexOf_notin.
Qed.

Lemma setCurrentTitle_eq : forall v s,
  setCurrentTitle v s =
  let nv := coerceCurrentTitle s v in
  if opt_eqb (currentTitle s) nv then (Ok tt, set_currentTitle nv s, [])
  else (Ok tt, set_updateRequested true (set_currentTitle nv s),
        [Emit (CurrentChanged (currentTitle s) nv)]).
Proof.
  intros v s. unfold setCurrentTitle, bind, get, modify, ret, update, out; simpl.
  destruct (opt_eqb (currentTitle s) (coerceCurrentTitle s v)); reflexivity.
Qed.

Lemma set_currentTitle_same : forall s, set_currentTitle (currentTitle s) s = s.
Proof. intros []; reflexivity. Qed.

Lemma bind_ok : forall {A B} (m : M A) (k : A -> M B) s a s1 o1,
  m s = (Ok a, s1, o1) ->
  bind m k s = let '(r, s2, o2) := k a s1 in (r, s2, o1 ++ o2).
Proof. intros A B m k s a s1 o1 H. unfold bind. now rewrite H. Qed.

Lemma bind_release : forall {A} (m : M A) s,
  (releaseMouse_ ;; m) s = m (run_state releaseMouse_ s).
Proof.
  intros A m s. rewrite (bind_ok _ _ _ tt _ _ (releaseMouse_eq s)).
  destruct (m _) as [[r s'] o]. reflexivity.
Qed.

Lemma insertTitle_eq : forall index title s,
  let s1 := run_state releaseMouse_ s in
  let n := titleCount s1 in
  let i := titleIndex s1 title in
  let j := Z.max 0 (Z.min (toInt32 index) n) in
  insertTitle index title s =
  if negb (i =? -1) then
    let j' := if j =? n then j - 1 else j in
    if i =? j' then (Ok tt, s1, [])
    else (Ok tt, set_updateRequested true
                   (set_dirty true (set_titles (arrays_move (titles s1) i j') s1)), [])
  else
    let s2 := set_subs (connect title (subs s1))
                (set_titles (arrays_insert (titles s1) j title) s1) in
    match currentTitle s1 with
    | None =>
        (Ok tt, set_updateRequested true (set_dirty true (set_currentTitle (Some title) s2)),
         [Emit (CurrentChanged None (Some title))])
    | Some _ => (Ok tt, set_updateRequested true (set_dirty true s2), [])
    end.
Proof.
  intros index title s. cbv zeta. unfold insertTitle. rewrite bind_release.
  set (s1 := run_state releaseMouse_ s).
  unfold bind at 1, get.
  destruct (negb (titleIndex s1 title =? -1)).
  - destruct (titleIndex s1 title =?
              (if Z.max 0 (Z.min (toInt32 index) (titleCount s1)) =? titleCount s1
               then Z.max 0 (Z.min (toInt32 index) (titleCount s1)) - 1
               else Z.max 0 (Z.min (toInt32 index) (titleCount s1)))); reflexivity.
  - destruct (currentTitle s1) eqn:Ec.
    + reflexivity.
    + unfold bind at 1 2 3, modify. simpl.
      rewrite setCurrentTitle_eq. cbv zeta. rewrite coerce_member.
      * simpl. rewrite Ec. reflexivity.
      * simpl. unfold arrays_insert. apply in_or_app. right. now left.
Qed.

Lemma notin_firstn : forall (l : list Title) k x, ~ In x l -> ~ In x (firstn k l).
Proof.
  intros l k x H Hin. apply H. rewrite <- (firstn_skipn k l). apply in_or_app. now left.
Qed.

Lemma arrays_move_spec : forall (l : list Title) k j x,
  nth_error l k = Some x -> 0 <= j < Z.of_nat (length l) ->
  arrays_move l (Z.of_nat k) j =
  let rest := firstn k l ++ skipn (S k) l in
  firstn (Z.to_nat j) rest ++ x :: skipn (Z.to_nat j) rest.
Proof.
  intros l k j x Hk Hj. unfold arrays_move.
  assert (Hlt : (k < length l)%nat) by (apply nth_error_Some; congruence).
  destruct (Z.ltb_spec (Z.of_nat k) 0); [lia|].
  destruct (Z.geb_spec (Z.of_nat k) (Z.of_nat (length l))); [lia|].
  destruct (Z.ltb_spec j 0); [lia|].
  destruct (Z.geb_spec j (Z.of_nat (length l))); [lia|].
  simpl. rewrite Nat2Z.id, Hk. reflexivity.
Qed.

Lemma titleIndex_release : forall s t,
  titleIndex (run_state releaseMouse_ s) t = titleIndex s t.
Proof.
  intros s t. unfold titleIndex. now destruct (releaseMouse_frame s) as [-> _].
Qed.

Lemma titleCount_release : forall s,
  titleCount (run_state releaseMouse_ s) = titleCount s.
Proof.
  intros s. unfold titleCount. now destruct (releaseMouse_frame s) as [-> _].
Qed.

Lemma removeTitleAt_eq : forall index s,
  let s1 := run_state releaseMouse_ s in
  let i := toInt32 index in
  removeTitleAt index s =
  if (i <? 0) || (i >=? Z.of_nat (length (titles s))) then (Ok tt, s1, [])
  else
    match nth_error (titles s) (Z.to_nat i) with
    | None => (Ok tt, s1, [])
    | Some t =>
        let rest := firstn (Z.to_nat i) (titles s) ++ skipn (S (Z.to_nat i)) (titles s) in
        let s2 := set_subs (disconnect t (subs s1)) (set_titles rest s1) in
        if opt_eqb (currentTitle s) (Some t) then
          let v := coerceCurrentTitle s2
                     (match at_ rest i with Some u => Some u | None => at_ rest (i - 1) end) in
          (Ok tt, set_updateRequested true (set_dirty true (set_currentTitle v s2)),
           if opt_eqb (currentTitle s) v then []
           else [Emit (CurrentChanged (currentTitle s) v)])
        else (Ok tt, set_updateRequested true (set_dirty true s2), [])
    end.
Proof.
  intros index s. cbv zeta. unfold removeTitleAt. rewrite bind_release.
  destruct (releaseMouse_frame s) as [Ht [Hc _]].
  set (s1 := run_state releaseMouse_ s) in *.
  unfold bind at 1, get. rewrite Ht.
  destruct ((toInt32 index <? 0) || (toInt32 index >=? Z.of_nat (length (titles s)))) eqn:E;
    [reflexivity|].
  unfold arrays_removeAt. rewrite E.
  destruct (nth_error (titles s) (Z.to_nat (toInt32 index))) as [t|]; [|reflexivity].
  unfold bind, modify, get, update, ret. simpl. rewrite Hc.
  destruct (opt_eqb (currentTitle s) (Some t)); [|reflexivity].
  rewrite setCurrentTitle_eq. cbv zeta. simpl. rewrite Hc.
  match goal with |- context [if opt_eqb (currentTitle s) ?v then _ else _] =>
    destruct (opt_eqb (currentTitle s) v) end; reflexivity.
Qed.


Lemma handleEvent_move_up : forall closable e s,
  etype e = MouseMove \/ etype e = MouseUp ->
  handleEvent closable e s = (Ok tt, s, []).
Proof.
  intros closable e s [H|H]; unfold handleEvent; rewrite H; reflexivity.
Qed.

(** ** Claims *)

(** C1 (amended). [handleEvent] dispatches only 'click' and 'mousedown'
    (the 'mousemove' and 'mouseup' cases are commented out and the tab bar
    has no tab-moved signal), so any sequence of mousemove and mouseup
    events delivered to the tab bar, during a drag session or not, leaves
    the whole state unchanged (title collection, current title, drag
    session) and produces no output. *)
Theorem drag_move_release_inert : forall closable evs s,
  Forall (fun e => etype e = MouseMove \/ etype e = MouseUp) evs ->
  handleEvents closable evs s = (Ok tt, s, []).
Proof.
  intros closable evs; induction evs as [|e evs IH]; intros s H; [reflexivity|].
  inversion H as [|e' evs' He Hevs]; subst.
  simpl. unfold bind at 1. rewrite (handleEvent_move_up closable e s He).
  rewrite (IH s Hevs). reflexivity.
Qed.

(** Witness for C1: a press on [B] opens a drag session; the following
    move far to the left and the release change nothing. *)
Lemma drag_move_release_inert_witness :
  let s := run_state (handleEvent (fun _ => false)
                        (leftEvent MouseDown 60 5 (TgtTab 1))) barAB in
  let evs := [leftEvent MouseMove (-200) 5 (TgtTab 1);
              leftEvent MouseUp (-200) 5 (TgtTab 1)] in
  dragData s <> None /\ handleEvents (fun _ => false) evs s = (Ok tt, s, []).
Proof.
  cbv zeta. split.
  - vm_compute. discriminate.
  - apply drag_move_release_inert.
    constructor; [left; reflexivity|].
    constructor; [right; reflexivity|].
    constructor.
Defined.

(** C1 (counterexample). With collection [A, B], pressing on [B],
    dragging it far left of [A] and releasing leaves the collection
    [A, B]; it does not become [B, A]. *)
Lemma drag_B_left_keeps_order :
  titles (run_state (handleEvents (fun _ => false)
            [leftEvent MouseDown 60 5 (TgtTab 1);
             leftEvent MouseMove (-200) 5 (TgtTab 1);
             leftEvent MouseUp (-200) 5 (TgtTab 1)]) barAB) <> [titleB; titleA].
Proof. vm_compute. discriminate. Qed.

(** C2 (amended). A mousemove event never changes the tab bar and never
    produces any output: the tab bar has no detach-requested signal and
    never emits one, whatever the pointer position. *)
Theorem mousemove_inert : forall closable b x y tgt s,
  handleEvent closable (mkMouseEvent MouseMove b x y tgt) s = (Ok tt, s, []).
Proof. reflexivity. Qed.

(** C2 (counterexample). A press on [B] followed by moves 200 and 250
    pixels to the left of the content area (whose left edge is at 0)
    produces only the press's outputs: no detach-requested notification. *)
Lemma tear_off_emits_no_detach :
  run_log (handleEvents (fun _ => false)
             [leftEvent MouseDown 60 5 (TgtTab 1);
              leftEvent MouseMove (-200) 5 (TgtTab 1);
              leftEvent MouseMove (-250) 5 (TgtTab 1)]) barAB
  = [PreventDefault; StopPropagation;
     Emit (CurrentChanged (Some titleA) (Some titleB))].
Proof. vm_compute. reflexivity. Qed.

Lemma popAll_S : forall fuel s,
  popAll (S fuel) s =
  match rev (titles s) with
  | [] => (Ok tt, s, [])
  | t :: revRest =>
      popAll fuel (set_subs (disconnect t (subs s)) (set_titles (rev revRest) s))
  end.
Proof.
  intros fuel s. simpl. unfold bind, get, modify, ret.
  destruct (rev (titles s)) as [|t revRest]; [reflexivity|].
  destruct (popAll fuel _) as [[r s'] o]. reflexivity.
Qed.

Lemma popAll_spec : forall fuel s,
  (length (titles s) <= fuel)%nat ->
  popAll fuel s = (Ok tt, run_state (popAll fuel) s, []) /\
  titles (run_state (popAll fuel) s) = [] /\
  currentTitle (run_state (popAll fuel) s) = currentTitle s.
Proof.
  induction fuel as [|fuel IH]; intros s H.
  - destruct (titles s) eqn:E; simpl in H; [|lia].
    unfold run_state; simpl. auto.
  - unfold run_state. rewrite popAll_S.
    destruct (rev (titles s)) as [|t revRest] eqn:E.
    + apply (f_equal (@rev Title)) in E. rewrite rev_involutive in E.
      simpl in E. simpl. auto.
    + set (s1 := set_subs (disconnect t (subs s)) (set_titles (rev revRest) s)).
      assert (Hl : (length (titles s1) <= fuel)%nat).
      { simpl. apply (f_equal (@length Title)) in E.
        rewrite length_rev in E. simpl in E. rewrite length_rev. lia. }
      destruct (IH s1 Hl) as [Heq [Ht Hc]].
      unfold run_state in *. rewrite Heq. simpl. auto.
Qed.

(** C3 (code bug). [clearTitles] empties the title collection but never
    reassigns [currentTitle]: on every state the current title afterwards
    is the one before, so a non-null current title is left pointing at a
    title that is no longer a member. *)
Theorem clearTitles_keeps_current : forall s,
  let '(r, s', o) := clearTitles s in
  r = Ok tt /\ titles s' = [] /\ currentTitle s' = currentTitle s.
Proof.
  intros s. unfold clearTitles, bind at 1. rewrite releaseMouse_eq.
  set (s1 := run_state releaseMouse_ s).
  destruct (releaseMouse_frame s) as [Ht [Hc _]]. fold s1 in Ht, Hc.
  unfold bind, get.
  destruct (popAll_spec (length (titles s1)) s1 (le_n _)) as [Heq [Ht' Hc']].
  rewrite Heq. simpl. split; [reflexivity|]. split; [exact Ht'|]. congruence.
Qed.

(** The C3 defect on a concrete bar: add [A] to a fresh bar, then clear. *)
Lemma clearTitles_stale_current_example :
  let s := run_state (addTitle titleA ;; clearTitles) emptyBar in
  titles s = [] /\ currentTitle s = Some titleA.
Proof. vm_compute. split; reflexivity. Qed.

(** C6 (amended). Assigning a title that is not a member (or [null])
    stores [null]; a currentChanged notification fires exactly when the
    previous current title was non-null, carrying it and [null]. On a
    state whose current title is [null] or a member, assigning the current
    title again changes nothing and fires nothing. *)
Theorem setCurrentTitle_nonmember_or_same : forall s v,
  (forall t, v = Some t -> ~ In t (titles s)) ->
  let '(r, s', o) := setCurrentTitle v s in
  r = Ok tt /\ currentTitle s' = None /\
  o = (match currentTitle s with
       | None => []
       | Some c => [Emit (CurrentChanged (Some c) None)]
       end) /\
  ((currentTitle s = None \/ exists c, currentTitle s = Some c /\ In c (titles s)) ->
   setCurrentTitle (currentTitle s) s = (Ok tt, s, [])).
Proof.
  intros s v Hv.
  assert (Hn : coerceCurrentTitle s v = None).
  { destruct v as [t|]; [|reflexivity]. apply coerce_nonmember. now apply Hv. }
  assert (Hsame : (currentTitle s = None \/
                   exists c, currentTitle s = Some c /\ In c (titles s)) ->
                  setCurrentTitle (currentTitle s) s = (Ok tt, s, [])).
  { intros Hwf.
    assert (Hs : coerceCurrentTitle s (currentTitle s) = currentTitle s).
    { destruct Hwf as [H|[c [H Hin]]]; rewrite H; [reflexivity|].
      now apply coerce_member. }
    rewrite (setCurrentTitle_eq (currentTitle s) s). cbv zeta. rewrite Hs.
    assert (Hr : opt_eqb (currentTitle s) (currentTitle s) = true) by now apply opt_eqb_eq.
    now rewrite Hr, set_currentTitle_same. }
  rewrite setCurrentTitle_eq. cbv zeta. rewrite Hn.
  destruct (currentTitle s) as [c|] eqn:E; simpl; auto.
Qed.

(** Witness for C6: [A, B] with current [A]; assigning the non-member
    [C] stores [null] and fires (A, null). *)
Lemma setCurrentTitle_nonmember_or_same_witness :
  (forall t, Some titleC = Some t -> ~ In t (titles barAB)) /\
  (let '(r, s', o) := setCurrentTitle (Some titleC) barAB in
   r = Ok tt /\ currentTitle s' = None /\
   o = (match currentTitle barAB with
        | None => []
        | Some c => [Emit (CurrentChanged (Some c) None)]
        end) /\
   ((currentTitle barAB = None \/
       exists c, currentTitle barAB = Some c /\ In c (titles barAB)) ->
    setCurrentTitle (currentTitle barAB) barAB = (Ok tt, barAB, []))).
Proof.
  assert (H1 : forall t, Some titleC = Some t -> ~ In t (titles barAB)).
  { intros t Ht. injection Ht as <-. vm_compute. intros [H|[H|H]]; try discriminate; exact H. }
  split; [exact H1|].
  exact (setCurrentTitle_nonmember_or_same barAB (Some titleC) H1).
Defined.

(** C6 (counterexample). On [A, B] with current [A], assigning the
    non-member [C] fires a currentChanged notification (A, null). *)
Lemma nonmember_assignment_notifies :
  run_log (setCurrentTitle (Some titleC)) barAB
  = [Emit (CurrentChanged (Some titleA) None)].
Proof. vm_compute. reflexivity. Qed.

(** C8. A left click whose coordinates hit the tab node at index [k]
    leaves the state unchanged, stops propagation, and emits a
    tabCloseRequested signal (and no other signal) exactly when the tab
    has a title, that title is closable, and the click target lies inside
    that tab's close icon. *)
Theorem click_on_tab : forall closable s x y tgt k,
  hitTestTabs s x y = Z.of_nat k ->
  let '(r, s', o) := handleEvent closable (mkMouseEvent Click 0 x y tgt) s in
  s' = s /\ In StopPropagation o /\
  (forall sg, In (Emit sg) o <->
     exists t, sg = TabCloseRequested t /\ nth_error (titles s) k = Some t /\
               closable t = true /\ tgt = TgtCloseIcon k).
Proof.
  intros closable s x y tgt k Hhit.
  unfold handleEvent, evtClick; simpl.
  unfold bind, get, out, ret, throw. simpl. rewrite Hhit.
  assert (Hk : (Z.of_nat k <? 0) = false) by (apply Z.ltb_ge; lia).
  rewrite Hk. unfold at_. rewrite Hk, Nat2Z.id.
  destruct (nth_error (titles s) k) as [t|] eqn:Et; simpl.
  - destruct (closable t) eqn:Ec; simpl.
    + unfold closeIconContains.
      destruct tgt as [i|i|] eqn:Etgt; simpl.
      * destruct (Z.eqb_spec (Z.of_nat i) (Z.of_nat k)) as [E|E]; simpl.
        -- assert (i = k) by lia. subst i.
           split; [reflexivity|]. split; [right; left; reflexivity|].
           intros sg; split.
           ++ intros [H|[H|[H|H]]]; try discriminate; [|contradiction].
              injection H as <-. exists t. auto.
           ++ intros [t' [-> [Ht' _]]]. injection Ht' as ->. right; right; left; reflexivity.
        -- split; [reflexivity|]. split; [right; left; reflexivity|].
           intros sg; split.
           ++ intros [H|[H|H]]; try discriminate; contradiction.
           ++ intros [t' [_ [_ [_ Hi]]]]. injection Hi as ->. contradiction.
      * split; [reflexivity|]. split; [right; left; reflexivity|].
        intros sg; split.
        -- intros [H|[H|H]]; try discriminate; contradiction.
        -- intros [t' [_ [_ [_ Hi]]]]. discriminate.
      * split; [reflexivity|]. split; [right; left; reflexivity|].
        intros sg; split.
        -- intros [H|[H|H]]; try discriminate; contradiction.
        -- intros [t' [_ [_ [_ Hi]]]]. discriminate.
    + split; [reflexivity|]. split; [right; left; reflexivity|].
      intros sg; split.
      * intros [H|[H|H]]; try discriminate; contradiction.
      * intros [t' [_ [Ht' [Hc _]]]]. injection Ht' as ->. congruence.
  - split; [reflexivity|]. split; [right; left; reflexivity|].
    intros sg; split.
    + intros [H|[H|H]]; try discriminate; contradiction.
    + intros [t' [_ [Ht' _]]]. discriminate.
Qed.

(** Witness for C8: on [A, B] with [B] closable, a left click at (55, 5)
    inside [B]'s close icon hits tab 1. *)
Lemma click_on_tab_witness :
  hitTestTabs barAB 55 5 = Z.of_nat 1 /\
  (let '(r, s', o) := handleEvent (fun t => Nat.eqb t titleB)
                        (mkMouseEvent Click 0 55 5 (TgtCloseIcon 1)) barAB in
   s' = barAB /\ In StopPropagation o /\
   (forall sg, In (Emit sg) o <->
      exists t, sg = TabCloseRequested t /\ nth_error (titles barAB) 1 = Some t /\
                Nat.eqb t titleB = true /\ TgtCloseIcon 1 = TgtCloseIcon 1)).
Proof.
  assert (H : hitTestTabs barAB 55 5 = Z.of_nat 1) by reflexivity.
  split; [exact H|].
  exact (click_on_tab (fun t => Nat.eqb t titleB) barAB 55 5 (TgtCloseIcon 1) 1 H).
Defined.

(** C9. [releaseMouse] never fails and produces no output; with no drag
    session it changes nothing; with one it clears the session reference
    and removes the document listeners; a second call right after is a
    no-op, so calling it twice equals calling it once. *)
Theorem releaseMouse_idempotent : forall s,
  let '(r, s1, o) := releaseMouse s in
  r = Ok tt /\ o = [] /\ dragData s1 = None /\
  (match dragData s with
   | None => s1 = s
   | Some _ => docListeners s1 = false
   end) /\
  releaseMouse s1 = (Ok tt, s1, []) /\
  (releaseMouse ;; releaseMouse) s = releaseMouse s.
Proof.
  intros s. unfold releaseMouse.
  assert (Hagain : forall s1, dragData s1 = None -> releaseMouse_ s1 = (Ok tt, s1, [])).
  { intros s1 H. rewrite releaseMouse_eq, releaseMouse_none by exact H. reflexivity. }
  rewrite releaseMouse_eq.
  destruct (releaseMouse_frame s) as [_ [_ [_ [_ [_ [_ Hd]]]]]].
  repeat split; auto.
  - destruct (dragData s) as [d|] eqn:E.
    + unfold run_state, releaseMouse_, bind, get, modify, ret. rewrite E.
      destruct (dd_dragActive d); reflexivity.
    + now apply releaseMouse_none.
  - unfold bind at 1. rewrite releaseMouse_eq. rewrite (Hagain _ Hd). reflexivity.
Qed.


Lemma titles_barAB_NoDup : NoDup (titles barAB).
Proof.
  vm_compute. constructor; [intros [H|H]; [discriminate|contradiction]|].
  constructor; [intros []|constructor].
Qed.



(** C7 (amended). Inserting a title makes it current exactly when it is
    not yet a member and [currentTitle] is [null] beforehand (whether or
    not the collection is empty); in every other case [currentTitle] is
    unchanged. *)
Theorem insertTitle_current : forall index title s,
  currentTitle (run_state (insertTitle index title) s) =
  if (titleIndex s title =? -1) &&
     match currentTitle s with None => true | Some _ => false end
  then Some title else currentTitle s.
Proof.
  intros index title s. unfold run_state. rewrite insertTitle_eq. cbv zeta.
  rewrite titleIndex_release, titleCount_release.
  destruct (releaseMouse_frame s) as [_ [Hc _]].
  destruct (titleIndex s title =? -1) eqn:E; simpl.
  - rewrite Hc. destruct (currentTitle s) eqn:E2; simpl; [|reflexivity].
    rewrite Hc. reflexivity.
  - repeat match goal with |- context [if ?b then _ else _] => destruct b end;
      simpl; exact Hc.
Qed.

(** C7 (counterexample). On [A, B], assigning the non-member [C] makes
    the current title [null]; inserting [C] afterwards, a subsequent
    (third) insertion, changes the current title to [C]. *)
Lemma later_insert_changes_current :
  let s := run_state (setCurrentTitle (Some titleC)) barAB in
  titles s = [titleA; titleB] /\ currentTitle s = None /\
  currentTitle (run_state (addTitle titleC) s) = Some titleC.
Proof. vm_compute. repeat split. Qed.






(** ** Further properties of the code *)

Lemma toInt32_small : forall x, -2 ^ 31 <= x < 2 ^ 31 -> toInt32 x = x.
Proof.
  intros x Hx. unfold toInt32.
  destruct (Z.leb_spec 0 x) as [Hp|Hn].
  - rewrite Z.mod_small by lia. destruct (Z.geb_spec x (2 ^ 31)); lia.
  - replace (x mod 2 ^ 32) with (x + 2 ^ 32).
    + destruct (Z.geb_spec (x + 2 ^ 32) (2 ^ 31)); lia.
    + apply (Z.mod_unique x (2 ^ 32) (-1)); lia.
Qed.

Lemma in_connect : forall t l x, In x (connect t l) <-> In x l \/ x = t.
Proof.
  intros t l x. unfold connect. destruct (existsb (Nat.eqb t) l) eqn:E.
  - apply existsb_exists in E as [y [Hy Ey]]. apply Nat.eqb_eq in Ey. subst y.
    split; [now left|]. intros [H| ->]; auto.
  - rewrite in_app_iff. simpl. intuition.
Qed.

Lemma in_disconnect : forall t l x, In x (disconnect t l) <-> In x l /\ x <> t.
Proof.
  intros t l x. unfold disconnect. rewrite filter_In.
  destruct (Nat.eqb_spec x t); simpl; intuition congruence.
Qed.

Lemma arrays_insert_perm : forall (l : list Title) j t,
  Permutation (t :: l) (arrays_insert l j t).
Proof.
  intros l j t. unfold arrays_insert.
  rewrite <- (firstn_skipn (Z.to_nat (Z.max 0 (Z.min j (Z.of_nat (length l))))) l) at 1.
  apply Permutation_middle.
Qed.

Lemma arrays_move_perm : forall (l : list Title) i j, Permutation l (arrays_move l i j).
Proof.
  intros l i j. unfold arrays_move.
  destruct (_ || _); [reflexivity|].
  destruct (nth_error l (Z.to_nat i)) as [v|] eqn:E; [|reflexivity].
  rewrite (nth_error_split_at _ _ _ E) at 1.
  rewrite <- Permutation_middle.
  rewrite <- (firstn_skipn (Z.to_nat j) (firstn _ l ++ skipn _ l)) at 1.
  apply Permutation_middle.
Qed.

(** X1. [insertTitle] keeps the collection free of duplicates: a new title
    is added once, and an existing title is only moved, so the collection
    is a permutation of the old one with the new title added. *)
Theorem insertTitle_perm : forall index title s,
  NoDup (titles s) ->
  let s' := run_state (insertTitle index title) s in
  NoDup (titles s') /\
  (In title (titles s) -> Permutation (titles s) (titles s')) /\
  (~ In title (titles s) -> Permutation (title :: titles s) (titles s')).
Proof.
  intros index title s Hnd. cbv zeta. unfold run_state. rewrite insertTitle_eq. cbv zeta.
  rewrite titleIndex_release, titleCount_release.
  destruct (releaseMouse_frame s) as [Ht _].
  set (s1 := run_state releaseMouse_ s) in *.
  destruct (Z.eqb_spec (titleIndex s title) (-1)) as [Enew|Eold]; simpl negb; cbv iota.
  - assert (Hnin : ~ In title (titles s)) by exact (indexOf_in _ _ Enew).
    assert (Hp : Permutation (title :: titles s)
                   (arrays_insert (titles s) (Z.max 0 (Z.min (toInt32 index) (titleCount s))) title))
      by apply arrays_insert_perm.
    destruct (currentTitle s1); simpl; rewrite Ht;
      (split; [eapply Permutation_NoDup; [exact Hp|constructor; assumption]|];
       split; [intros; contradiction|intros _; exact Hp]).
  - assert (Hin : In title (titles s)).
    { destruct (in_dec Nat.eq_dec title (titles s)) as [H|H]; [exact H|].
      exfalso. apply Eold. unfold titleIndex. now apply indexOf_notin. }
    match goal with |- context [if titleIndex s title =? ?j then _ else _] =>
      destruct (titleIndex s title =? j) end; simpl.
    + rewrite Ht. split; [exact Hnd|]. split; [reflexivity|intros; contradiction].
    + rewrite Ht. assert (Hp := arrays_move_perm (titles s) (titleIndex s title)
                      (if Z.max 0 (Z.min (toInt32 index) (titleCount s)) =? titleCount s
                       then Z.max 0 (Z.min (toInt32 index) (titleCount s)) - 1
                       else Z.max 0 (Z.min (toInt32 index) (titleCount s)))).
      split; [eapply Permutation_NoDup; eassumption|].
      split; [intros _; exact Hp|intros; contradiction].
Qed.

(** Witness for X1: moving [A] of [A, B] to index 10. *)
Lemma insertTitle_perm_witness :
  NoDup (titles barAB) /\
  (let s' := run_state (insertTitle 10 titleA) barAB in
   NoDup (titles s') /\
   (In titleA (titles barAB) -> Permutation (titles barAB) (titles s')) /\
   (~ In titleA (titles barAB) -> Permutation (titleA :: titles barAB) (titles s'))).
Proof.
  split; [exact titles_barAB_NoDup|].
  exact (insertTitle_perm 10 titleA barAB titles_barAB_NoDup).
Defined.

Lemma coerce_valid : forall s v,
  match coerceCurrentTitle s v with None => True | Some c => In c (titles s) end.
Proof.
  intros s [t|]; [|exact I]. unfold coerceCurrentTitle.
  destruct (Z.eqb_spec (titleIndex s t) (-1)) as [E|E]; simpl; [exact I|].
  destruct (in_dec Nat.eq_dec t (titles s)) as [H|H]; [exact H|].
  exfalso. apply E. unfold titleIndex. now apply indexOf_notin.
Qed.

Lemma setCurrentTitle_state : forall v s,
  let s' := run_state (setCurrentTitle v) s in
  titles s' = titles s /\ currentTitle s' = coerceCurrentTitle s v /\ subs s' = subs s /\
  dragData s' = dragData s /\ docListeners s' = docListeners s.
Proof.
  intros v s. cbv zeta. unfold run_state. rewrite setCurrentTitle_eq. cbv zeta.
  destruct (opt_eqb _ _); simpl; auto.
Qed.

Lemma setCurrentTitle_log : forall v s, exists r,
  setCurrentTitle v s = (Ok tt, run_state (setCurrentTitle v) s, r).
Proof.
  intros v s. unfold run_state. rewrite setCurrentTitle_eq. cbv zeta.
  destruct (opt_eqb _ _); eexists; reflexivity.
Qed.

Lemma currentValid_release : forall s, currentValid s -> currentValid (run_state releaseMouse_ s).
Proof.
  intros s H. unfold currentValid in *. destruct (releaseMouse_frame s) as [Ht [Hc _]].
  rewrite Ht, Hc. exact H.
Qed.

Lemma evtClick_state : forall closable e s, run_state (evtClick closable e) s = s.
Proof.
  intros closable e s. unfold run_state, evtClick, bind, get, ret, out, throw.
  destruct (negb _); [reflexivity|]. cbv zeta.
  destruct (_ <? 0); [reflexivity|].
  destruct (at_ _ _); [|reflexivity].
  destruct (negb (closable _)); [reflexivity|].
  destruct (negb (closeIconContains _ _)); reflexivity.
Qed.

Lemma evtMouseDown_eq : forall e s,
  evtMouseDown e s =
  if negb (button e =? 0) then (Ok tt, s, []) else
  match dragData s with
  | Some _ => (Ok tt, s, [])
  | None =>
      let i := hitTestTabs s (clientX e) (clientY e) in
      if i <? 0 then (Ok tt, s, [])
      else if closeIconContains i (target e) then (Ok tt, s, [PreventDefault; StopPropagation])
      else
        let s1 := match at_ (children s) i with
                  | None => s
                  | Some tab =>
                      if tabsMovable s then
                        set_docListeners true (set_dragData (Some (mkDragData
                          (at_ (titles s) i) (Z.to_nat i) i (node_offsetLeft tab)
                          (rright (node_rect tab) - rleft (node_rect tab))
                          (clientX e - rleft (node_rect tab))
                          (-1) (clientX e) (clientY e) false false)) s)
                      else s
                  end in
        (Ok tt, run_state (setCurrentTitle (at_ (titles s) i)) s1,
         PreventDefault :: StopPropagation :: run_log (setCurrentTitle (at_ (titles s) i)) s1)
  end.
Proof.
  intros e s. unfold evtMouseDown, bind at 1, get.
  destruct (negb _); [reflexivity|].
  destruct (dragData s); [reflexivity|]. cbv zeta.
  destruct (_ <? 0); [reflexivity|].
  unfold bind, out, ret, modify.
  destruct (closeIconContains _ _); [reflexivity|].
  unfold run_log, run_state.
  destruct (at_ (children s) _); [destruct (tabsMovable s)|];
    (match goal with |- context [setCurrentTitle ?v ?s1] =>
       destruct (setCurrentTitle_log v s1) as [r Hr]; unfold run_state in Hr; rewrite Hr end);
    reflexivity.
Qed.

Lemma hitTestNodes_spec : forall nodes x y i0,
  (hitTestNodes nodes x y i0 = -1 /\ Forall (fun n => hitTest n x y = false) nodes) \/
  (exists k n, hitTestNodes nodes x y i0 = i0 + Z.of_nat k /\ nth_error nodes k = Some n /\
     hitTest n x y = true /\ Forall (fun n => hitTest n x y = false) (firstn k nodes)).
Proof.
  induction nodes as [|m nodes IH]; intros x y i0; simpl.
  - left. split; [reflexivity|constructor].
  - destruct (hitTest m x y) eqn:Hm.
    + right. exists O, m. repeat split; [lia|assumption|constructor].
    + destruct (IH x y (i0 + 1)) as [[H1 H2]|[k [n [H1 [H2 [H3 H4]]]]]].
      * left. split; [exact H1|constructor; assumption].
      * right. exists (S k), n. repeat split; [lia|assumption|assumption|].
        simpl. constructor; assumption.
Qed.

Lemma popAll_subs : forall fuel s,
  (length (titles s) <= fuel)%nat ->
  forall x, In x (subs (run_state (popAll fuel) s)) <-> In x (subs s) /\ ~ In x (titles s).
Proof.
  induction fuel as [|fuel IH]; intros s H x.
  - destruct (titles s) eqn:E; simpl in H; [|lia].
    unfold run_state; simpl. tauto.
  - unfold run_state. rewrite popAll_S.
    destruct (rev (titles s)) as [|t revRest] eqn:E.
    + apply (f_equal (@rev Title)) in E. rewrite rev_involutive in E.
      simpl in E. simpl. rewrite E. simpl. tauto.
    + set (s1 := set_subs (disconnect t (subs s)) (set_titles (rev revRest) s)).
      assert (Hl : (length (titles s1) <= fuel)%nat).
      { simpl. apply (f_equal (@length Title)) in E.
        rewrite length_rev in E. simpl in E. rewrite length_rev. lia. }
      assert (Ht : titles s = rev revRest ++ [t]).
      { apply (f_equal (@rev Title)) in E. rewrite rev_involutive in E. exact E. }
      specialize (IH s1 Hl x). unfold run_state in IH. rewrite IH.
      simpl. rewrite in_disconnect, Ht, in_app_iff. simpl. intuition.
Qed.

Lemma clearTitles_state : forall s,
  let s1 := run_state releaseMouse_ s in
  clearTitles s =
  (Ok tt, set_updateRequested true (set_dirty true (run_state (popAll (length (titles s))) s1)), []).
Proof.
  intros s. cbv zeta. unfold clearTitles, bind at 1. rewrite releaseMouse_eq.
  destruct (releaseMouse_frame s) as [Ht _].
  set (s1 := run_state releaseMouse_ s) in *.
  unfold bind, get. rewrite <- Ht.
  destruct (popAll_spec (length (titles s1)) s1 (le_n _)) as [Heq _].
  rewrite Heq. reflexivity.
Qed.

Lemma in_remove_nodup : forall (l : list Title) k t x,
  NoDup l -> nth_error l k = Some t ->
  In x (firstn k l ++ skipn (S k) l) <-> In x l /\ x <> t.
Proof.
  intros l k t x Hnd Hk.
  assert (Hl := nth_error_split_at _ _ _ Hk).
  set (a := firstn k l) in *. set (b := skipn (S k) l) in *.
  rewrite Hl in Hnd. assert (Hn := NoDup_remove_2 _ _ _ Hnd).
  rewrite Hl, !in_app_iff. simpl. split.
  - intros H. split; [tauto|]. intros ->. apply Hn. apply in_app_iff. exact H.
  - intros [[H|[H|H]] Hne]; [now left|congruence|now right].
Qed.

(** X2. Every [TabBar] method that reassigns the current title keeps it
    [null] or a member: [insertTitle], [removeTitleAt], the
    [currentTitle] setter and the dispatch of DOM events all preserve the
    invariant. *)
Theorem currentValid_preserved : forall s,
  currentValid s ->
  (forall index t, currentValid (run_state (insertTitle index t) s)) /\
  (forall index, currentValid (run_state (removeTitleAt index) s)) /\
  (forall v, currentValid (run_state (setCurrentTitle v) s)) /\
  (forall closable e, currentValid (run_state (handleEvent closable e) s)).
Proof.
  intros s Hv. assert (Hv1 := currentValid_release s Hv).
  destruct (releaseMouse_frame s) as [Ht [Hc _]].
  split; [|split; [|split]].
  - intros index t. unfold run_state. rewrite insertTitle_eq. cbv zeta.
    rewrite titleIndex_release, titleCount_release.
    set (s1 := run_state releaseMouse_ s) in *.
    destruct (Z.eqb_spec (titleIndex s t) (-1)); simpl negb; cbv iota.
    + unfold currentValid in *. destruct (currentTitle s1) as [c|] eqn:Ec; simpl; rewrite ?Ec.
      * eapply Permutation_in; [apply arrays_insert_perm|]. right. exact Hv1.
      * eapply Permutation_in; [apply arrays_insert_perm|]. now left.
    + match goal with |- context [if titleIndex s t =? ?j then _ else _] =>
        destruct (titleIndex s t =? j) end; simpl; [exact Hv1|].
      unfold currentValid in *. simpl. destruct (currentTitle s1); [|exact I].
      eapply Permutation_in; [apply arrays_move_perm|exact Hv1].
  - intros index. unfold run_state. rewrite removeTitleAt_eq. cbv zeta.
    set (s1 := run_state releaseMouse_ s) in *.
    destruct (_ || _); [exact Hv1|].
    destruct (nth_error (titles s) (Z.to_nat (toInt32 index))) as [t|] eqn:En; [|exact Hv1].
    destruct (opt_eqb (currentTitle s) (Some t)) eqn:Eq; unfold currentValid; simpl.
    + match goal with |- context [coerceCurrentTitle ?s2 ?v] =>
        generalize (coerce_valid s2 v); destruct (coerceCurrentTitle s2 v) end;
      simpl; tauto.
    + rewrite Hc. unfold currentValid in Hv. destruct (currentTitle s) as [c|]; [|exact I].
      rewrite (nth_error_split_at _ _ _ En), in_app_iff in Hv. simpl in Hv.
      apply in_app_iff. destruct Hv as [H|[H|H]]; [now left| |now right].
      subst c. simpl in Eq. now rewrite Nat.eqb_refl in Eq.
  - intros v. destruct (setCurrentTitle_state v s) as [Ht' [Hc' _]].
    unfold currentValid. rewrite Hc', Ht'. apply coerce_valid.
  - intros closable e. unfold handleEvent. destruct (etype e).
    + now rewrite evtClick_state.
    + unfold run_state. rewrite evtMouseDown_eq.
      destruct (negb _); [exact Hv|]. destruct (dragData s); [exact Hv|]. cbv zeta.
      destruct (_ <? 0); [exact Hv|]. destruct (closeIconContains _ _); [exact Hv|].
      cbn [fst snd]. match goal with |- context [run_state (setCurrentTitle ?v) ?s1] =>
        destruct (setCurrentTitle_state v s1) as [Ht' [Hc' _]] end.
      unfold currentValid. rewrite Hc', Ht'. apply coerce_valid.
    + exact Hv.
    + exact Hv.
    + exact Hv.
Qed.

(** Witness for X2: the bar [A, B] with current title [A]. *)
Lemma currentValid_preserved_witness :
  currentValid barAB /\
  (forall index, currentValid (run_state (removeTitleAt index) barAB)).
Proof.
  assert (H : currentValid barAB) by (vm_compute; tauto).
  split; [exact H|]. exact (proj1 (proj2 (currentValid_preserved barAB H))).
Defined.

(** X3. With a duplicate-free collection, the [changed] connections match
    the members exactly, and [insertTitle], [removeTitleAt] and
    [clearTitles] keep them matched. *)
Theorem subsMatch_preserved : forall s,
  NoDup (titles s) -> subsMatch s ->
  (forall index t, subsMatch (run_state (insertTitle index t) s)) /\
  (forall index, subsMatch (run_state (removeTitleAt index) s)) /\
  subsMatch (run_state clearTitles s).
Proof.
  intros s Hnd Hm. unfold subsMatch in *.
  destruct (releaseMouse_frame s) as [Ht [_ [_ [_ [Hs _]]]]].
  split; [|split].
  - intros index t. unfold run_state. rewrite insertTitle_eq. cbv zeta.
    rewrite titleIndex_release, titleCount_release.
    set (s1 := run_state releaseMouse_ s) in *.
    destruct (Z.eqb_spec (titleIndex s t) (-1)); simpl negb; cbv iota.
    + assert (Hg : forall x, In x (connect t (subs s1)) <->
                     In x (arrays_insert (titles s1) (Z.max 0 (Z.min (toInt32 index) (titleCount s))) t)).
      { intros x. rewrite in_connect, Hs, Hm, Ht.
        split.
        - intros H. eapply Permutation_in; [apply arrays_insert_perm|]. simpl.
          destruct H as [H| ->]; [now right|now left].
        - intros H. eapply Permutation_in in H; [|symmetry; apply arrays_insert_perm].
          simpl in H. destruct H as [->|H]; [now right|now left]. }
      destruct (currentTitle s1); intros x; simpl; apply Hg.
    + match goal with |- context [if titleIndex s t =? ?j then _ else _] =>
        destruct (titleIndex s t =? j) end; simpl; intros x; simpl.
      * rewrite Hs, Ht. apply Hm.
      * rewrite Hs, Hm, <- Ht. split; intros H.
        -- eapply Permutation_in; [apply arrays_move_perm|exact H].
        -- eapply Permutation_in; [symmetry; apply arrays_move_perm|exact H].
  - intros index. unfold run_state. rewrite removeTitleAt_eq. cbv zeta.
    set (s1 := run_state releaseMouse_ s) in *.
    destruct ((toInt32 index <? 0) || (toInt32 index >=? Z.of_nat (length (titles s))));
      [intros x; simpl; rewrite Hs, Ht; apply Hm|].
    destruct (nth_error (titles s) (Z.to_nat (toInt32 index))) as [t|] eqn:En;
      [|intros x; simpl; rewrite Hs, Ht; apply Hm].
    assert (Hg : forall x, In x (disconnect t (subs s1)) <->
                   In x (firstn (Z.to_nat (toInt32 index)) (titles s) ++
                         skipn (S (Z.to_nat (toInt32 index))) (titles s))).
    { intros x. rewrite in_disconnect, Hs, Hm. symmetry. now apply in_remove_nodup. }
    destruct (opt_eqb _ _); intros x; simpl; apply Hg.
  - assert (E : run_state clearTitles s =
                 set_updateRequested true (set_dirty true
                   (run_state (popAll (length (titles s))) (run_state releaseMouse_ s))))
      by (unfold run_state at 1; rewrite clearTitles_state; reflexivity).
    rewrite E. set (s1 := run_state releaseMouse_ s) in *.
    destruct (popAll_spec (length (titles s)) s1) as [_ [Hnil _]]; [rewrite Ht; lia|].
    intros x. cbn [subs titles set_updateRequested set_dirty]. rewrite Hnil.
    rewrite (popAll_subs _ s1) by (rewrite Ht; lia).
    rewrite Hs, Ht, Hm. simpl. tauto.
Qed.

(** Witness for X3: the bar [A, B], whose connections are [A] and [B]. *)
Lemma subsMatch_preserved_witness :
  NoDup (titles barAB) /\ subsMatch barAB /\
  subsMatch (run_state clearTitles barAB).
Proof.
  assert (H : subsMatch barAB) by (intros x; vm_compute; tauto).
  split; [exact titles_barAB_NoDup|]. split; [exact H|].
  exact (proj2 (proj2 (subsMatch_preserved barAB titles_barAB_NoDup H))).
Defined.

(** X4. [clearTitles] empties the collection, disconnects the handler of
    every title that was a member (and of no other), marks the bar dirty and
    requests an update, without output. *)
Theorem clearTitles_disconnects : forall s,
  let '(r, s', o) := clearTitles s in
  r = Ok tt /\ o = [] /\ titles s' = [] /\ dirty s' = true /\ updateRequested s' = true /\
  (forall x, In x (subs s') <-> In x (subs s) /\ ~ In x (titles s)).
Proof.
  intros s. rewrite clearTitles_state. cbv zeta.
  destruct (releaseMouse_frame s) as [Ht [_ [_ [_ [Hs _]]]]].
  set (s1 := run_state releaseMouse_ s) in *.
  destruct (popAll_spec (length (titles s)) s1) as [_ [Hnil _]]; [rewrite Ht; lia|].
  cbn [subs titles dirty updateRequested set_updateRequested set_dirty].
  split; [reflexivity|]. split; [reflexivity|]. split; [exact Hnil|].
  split; [reflexivity|]. split; [reflexivity|].
  intros x. rewrite (popAll_subs _ s1) by (rewrite Ht; lia). rewrite Hs, Ht. tauto.
Qed.

(** X5. [hitTestTabs] returns the index of the first tab node whose rect
    contains the point, and [-1] exactly when no node contains it. *)
Theorem hitTestTabs_first : forall s x y,
  (hitTestTabs s x y = -1 /\ Forall (fun n => hitTest n x y = false) (children s)) \/
  (exists k n, hitTestTabs s x y = Z.of_nat k /\ nth_error (children s) k = Some n /\
     hitTest n x y = true /\ Forall (fun n => hitTest n x y = false) (firstn k (children s))).
Proof.
  intros s x y. unfold hitTestTabs.
  destruct (hitTestNodes_spec (children s) x y 0) as [H|[k [n [H1 H2]]]]; [now left|].
  right. exists k, n. split; [lia|exact H2].
Qed.

(** X6. A mousedown is ignored (no state change, no output) when it is not
    the left button, when a drag session is already open, or when it hits no
    tab. *)
Theorem evtMouseDown_ignored : forall e s,
  button e <> 0 \/ dragData s <> None \/ hitTestTabs s (clientX e) (clientY e) < 0 ->
  evtMouseDown e s = (Ok tt, s, []).
Proof.
  intros e s H. rewrite evtMouseDown_eq.
  destruct (Z.eqb_spec (button e) 0); [|reflexivity]. simpl negb. cbv iota.
  destruct (dragData s) eqn:Ed; [reflexivity|]. cbv zeta.
  destruct (Z.ltb_spec (hitTestTabs s (clientX e) (clientY e)) 0); [reflexivity|].
  exfalso. destruct H as [H|[H|H]]; [contradiction|congruence|lia].
Qed.

(** Witness for X6: a press outside both tabs of [A, B]. *)
Lemma evtMouseDown_ignored_witness :
  evtMouseDown (leftEvent MouseDown 150 5 TgtOther) barAB =
  (Ok tt, barAB, []).
Proof.
  apply evtMouseDown_ignored. right; right. vm_compute. reflexivity.
Defined.

(** X7. A left press on the close icon of the hit tab, with no session
    open, only prevents the default action and stops propagation: the
    current title does not change and no session starts. *)
Theorem evtMouseDown_close_icon : forall e s,
  button e = 0 -> dragData s = None ->
  0 <= hitTestTabs s (clientX e) (clientY e) ->
  closeIconContains (hitTestTabs s (clientX e) (clientY e)) (target e) = true ->
  evtMouseDown e s = (Ok tt, s, [PreventDefault; StopPropagation]).
Proof.
  intros e s H0 Hd Hi Hc. rewrite evtMouseDown_eq, H0, Hd. simpl negb. cbv iota zeta.
  destruct (Z.ltb_spec (hitTestTabs s (clientX e) (clientY e)) 0); [lia|].
  now rewrite Hc.
Qed.

(** Witness for X7: a press on the close icon of [B]. *)
Lemma evtMouseDown_close_icon_witness :
  evtMouseDown (leftEvent MouseDown 60 5 (TgtCloseIcon 1)) barAB =
  (Ok tt, barAB, [PreventDefault; StopPropagation]).
Proof.
  apply evtMouseDown_close_icon; vm_compute; first [reflexivity | discriminate].
Defined.

Lemma at_nat : forall {A} (l : list A) k, at_ l (Z.of_nat k) = nth_error l k.
Proof.
  intros A l k. unfold at_. destruct (Z.ltb_spec (Z.of_nat k) 0); [lia|].
  now rewrite Nat2Z.id.
Qed.

Lemma indexOf_nodup : forall l k x,
  NoDup l -> nth_error l k = Some x -> indexOf l x = Z.of_nat k.
Proof.
  intros l k x Hnd Hk. assert (Hl := nth_error_split_at _ _ _ Hk).
  assert (Hlt : (k < length l)%nat) by (apply nth_error_Some; congruence).
  rewrite Hl in Hnd |- *. rewrite indexOf_app_notin.
  - now rewrite firstn_skipn_length_le by lia.
  - intro H. apply (NoDup_remove_2 _ _ _ Hnd). apply in_app_iff. now left.
Qed.

Lemma removeTitle_eq : forall t s, removeTitle t s = removeTitleAt (titleIndex s t) s.
Proof.
  intros t s. unfold removeTitle, bind, get.
  destruct (removeTitleAt _ s) as [[r s'] o]. reflexivity.
Qed.

Lemma removeTitleAt_at : forall index s k t,
  toInt32 index = Z.of_nat k -> nth_error (titles s) k = Some t ->
  let s' := run_state (removeTitleAt index) s in
  titles s' = firstn k (titles s) ++ skipn (S k) (titles s) /\
  subs s' = disconnect t (subs s).
Proof.
  intros index s k t Hi Hk. cbv zeta. unfold run_state. rewrite removeTitleAt_eq. cbv zeta.
  assert (Hlt : (k < length (titles s))%nat) by (apply nth_error_Some; congruence).
  rewrite Hi. destruct (Z.ltb_spec (Z.of_nat k) 0); [lia|].
  destruct (Z.geb_spec (Z.of_nat k) (Z.of_nat (length (titles s)))); [lia|].
  simpl orb. cbv iota. rewrite Nat2Z.id, Hk.
  destruct (releaseMouse_frame s) as [_ [_ [_ [_ [Hs _]]]]].
  destruct (opt_eqb _ _); simpl; rewrite Hs; auto.
Qed.

Lemma run_state_seq : forall {A B} (m : M A) (k : M B) s a,
  run_result m s = Ok a -> run_state (m ;; k) s = run_state k (run_state m s).
Proof.
  intros A B m k s a H. unfold run_result, run_state, bind in *.
  destruct (m s) as [[r s1] o]. simpl in H. subst r. cbn [fst snd].
  destruct (k s1) as [[r2 s2] o2]. reflexivity.
Qed.

Lemma insertTitle_ok : forall index t s, run_result (insertTitle index t) s = Ok tt.
Proof.
  intros index t s. unfold run_result. rewrite insertTitle_eq. cbv zeta.
  destruct (negb _).
  - match goal with |- context [if titleIndex ?s1 t =? ?j then _ else _] =>
      destruct (titleIndex s1 t =? j) end; reflexivity.
  - destruct (currentTitle _); reflexivity.
Qed.

Lemma disconnect_notin : forall t l, ~ In t l -> disconnect t l = l.
Proof.
  intros t l H. unfold disconnect. induction l as [|u l IH]; [reflexivity|].
  simpl. destruct (Nat.eqb_spec u t) as [->|Hne]; [exfalso; apply H; now left|].
  simpl. f_equal. apply IH. intro; apply H; now right.
Qed.

(** X8. A left press on a tab (not on its close icon), with no session
    open and the tab within the titles, makes that tab's title current,
    leaves the collection and its connections alone, and opens a drag
    session recording the press exactly when the tabs are movable. The
    output starts with preventDefault and stopPropagation. *)
Theorem evtMouseDown_selects : forall e s,
  button e = 0 -> dragData s = None ->
  let i := hitTestTabs s (clientX e) (clientY e) in
  0 <= i < titleCount s ->
  closeIconContains i (target e) = false ->
  let s' := run_state (evtMouseDown e) s in
  currentTitle s' = titleAt s i /\ titles s' = titles s /\ subs s' = subs s /\
  (if tabsMovable s then
     exists d, dragData s' = Some d /\ dd_title d = titleAt s i /\ dd_tabIndex d = i /\
       dd_pressX d = clientX e /\ dd_pressY d = clientY e /\ dd_dragActive d = false /\
       docListeners s' = true
   else dragData s' = None /\ docListeners s' = docListeners s) /\
  firstn 2 (run_log (evtMouseDown e) s) = [PreventDefault; StopPropagation].
Proof.
  intros e s H0 Hd. cbv zeta. intros Hi Hc.
  unfold run_state at 1 2 3 4 5 6 7, run_log at 1. rewrite evtMouseDown_eq, H0, Hd.
  simpl negb. cbv iota zeta.
  destruct (Z.ltb_spec (hitTestTabs s (clientX e) (clientY e)) 0); [lia|].
  rewrite Hc. cbn [fst snd].
  unfold hitTestTabs in *.
  destruct (hitTestNodes_spec (children s) (clientX e) (clientY e) 0)
    as [[Hm _]|[k [n [Hk [Hn _]]]]]; [lia|].
  rewrite Hk in *. replace (0 + Z.of_nat k) with (Z.of_nat k) in * by lia.
  unfold titleAt. rewrite !at_nat, Hn.
  destruct (nth_error (titles s) k) as [t|] eqn:Et;
    [|apply nth_error_None in Et; unfold titleCount in Hi; lia].
  assert (Hin : In t (titles s)) by (eapply nth_error_In; eauto).
  destruct (tabsMovable s);
    (match goal with |- context [run_state (setCurrentTitle ?v) ?s1] =>
       destruct (setCurrentTitle_state v s1) as [A [B [C [D E]]]] end);
    rewrite A, B, C, D, E; cbn; (split; [now apply coerce_member|]);
    repeat split; auto.
  eexists. repeat split.
Qed.

(** Witness for X8: pressing the tab of [B] on the bar [A, B]. *)
Lemma evtMouseDown_selects_witness :
  let e := leftEvent MouseDown 60 5 (TgtTab 1) in
  let s' := run_state (evtMouseDown e) barAB in
  currentTitle s' = titleAt barAB 1 /\ titles s' = titles barAB.
Proof.
  cbv zeta.
  assert (Hi : 0 <= hitTestTabs barAB 60 5 < titleCount barAB)
    by (split; [apply Z.leb_le|apply Z.ltb_lt]; vm_compute; reflexivity).
  destruct (evtMouseDown_selects (leftEvent MouseDown 60 5 (TgtTab 1)) barAB
              eq_refl eq_refl Hi eq_refl) as [H1 [H2 _]].
  split; [exact H1|exact H2].
Defined.

(** X9. [titleIndex] and [titleAt] agree: the index of a member gives the
    member back, and a non-member has index [-1], where [titleAt] gives
    [undefined]. *)
Theorem titleAt_titleIndex : forall s t,
  titleAt s (titleIndex s t) = (if in_dec Nat.eq_dec t (titles s) then Some t else None) /\
  (titleIndex s t = -1 <-> ~ In t (titles s)).
Proof.
  intros s t. unfold titleAt, titleIndex.
  destruct (in_dec Nat.eq_dec t (titles s)) as [H|H].
  - assert (Hne : indexOf (titles s) t <> -1) by (intro E; exact (indexOf_in _ _ E H)).
    destruct (indexOf_nth _ _ Hne) as [k [Hk Hn]]. rewrite Hk, at_nat.
    split; [exact Hn|]. split; [intros E; lia|intros H'; contradiction].
  - rewrite (indexOf_notin _ _ H). split; [reflexivity|tauto].
Qed.

(** X10. In a duplicate-free collection, [titleIndex] inverts [titleAt]. *)
Theorem titleIndex_titleAt : forall s i t,
  NoDup (titles s) -> titleAt s i = Some t -> titleIndex s t = i.
Proof.
  intros s i t Hnd H. unfold titleAt, at_, titleIndex in *.
  destruct (Z.ltb_spec i 0); [discriminate|].
  rewrite (indexOf_nodup _ _ _ Hnd H). lia.
Qed.

(** Witness for X10: the title at index 1 of [A, B]. *)
Lemma titleIndex_titleAt_witness : titleIndex barAB titleB = 1.
Proof.
  apply (titleIndex_titleAt barAB 1 titleB titles_barAB_NoDup). vm_compute. reflexivity.
Defined.

(** X11. [removeTitle] removes a member of a duplicate-free collection
    (of fewer than 2^31 titles, so that its index survives the [| 0]
    conversion) and keeps the others; for a non-member it only releases the
    mouse. *)
Theorem removeTitle_spec : forall t s,
  NoDup (titles s) -> titleCount s <= 2 ^ 31 ->
  let s' := run_state (removeTitle t) s in
  (In t (titles s) -> Permutation (titles s) (t :: titles s') /\ ~ In t (titles s')) /\
  (~ In t (titles s) -> removeTitle t s = (Ok tt, run_state releaseMouse_ s, [])).
Proof.
  intros t s Hnd Hn. cbv zeta. split.
  - intros Hin. unfold run_state at 1 2. rewrite removeTitle_eq. fold (run_state (removeTitleAt (titleIndex s t)) s).
    assert (Hne : titleIndex s t <> -1) by (intro E; exact (indexOf_in _ _ E Hin)).
    destruct (indexOf_nth _ _ Hne) as [k [Hk Ht]]. fold (titleIndex s t) in Hk.
    assert (Hlt : (k < length (titles s))%nat) by (apply nth_error_Some; congruence).
    unfold titleCount in Hn.
    destruct (removeTitleAt_at (titleIndex s t) s k t) as [Hr _];
      [rewrite Hk; apply toInt32_small; lia|exact Ht|].
    rewrite Hr. assert (Hl := nth_error_split_at _ _ _ Ht).
    split.
    + rewrite Hl at 1. symmetry. apply Permutation_middle.
    + rewrite Hl in Hnd. exact (NoDup_remove_2 _ _ _ Hnd).
  - intros Hnin. rewrite removeTitle_eq. unfold titleIndex. rewrite (indexOf_notin _ _ Hnin).
    rewrite removeTitleAt_eq. reflexivity.
Qed.

(** Witness for X11: removing [B] from [A, B]. *)
Lemma removeTitle_spec_witness :
  Permutation (titles barAB) (titleB :: titles (run_state (removeTitle titleB) barAB)).
Proof.
  assert (Hn : titleCount barAB <= 2 ^ 31) by (apply Z.leb_le; vm_compute; reflexivity).
  apply (proj1 (removeTitle_spec titleB barAB titles_barAB_NoDup Hn)).
  vm_compute. tauto.
Defined.

(** X12. Inserting a new title (at any index) and then removing it
    restores the collection and its connections, when the title was not
    connected before and there are fewer than 2^31 titles. *)
Theorem insert_remove_roundtrip : forall index t s,
  ~ In t (titles s) -> ~ In t (subs s) -> titleCount s < 2 ^ 31 ->
  let s' := run_state (insertTitle index t ;; removeTitle t) s in
  titles s' = titles s /\ subs s' = subs s.
Proof.
  intros index t s Hnt Hns Hn. cbv zeta.
  rewrite (run_state_seq _ _ _ _ (insertTitle_ok index t s)).
  destruct (releaseMouse_frame s) as [Ht [_ [_ [_ [Hs _]]]]].
  set (j := Z.max 0 (Z.min (toInt32 index) (titleCount s))).
  assert (H1 : titles (run_state (insertTitle index t) s) = arrays_insert (titles s) j t /\
               subs (run_state (insertTitle index t) s) = subs s ++ [t]).
  { unfold run_state at 1 2. rewrite insertTitle_eq. cbv zeta.
    rewrite titleIndex_release, titleCount_release.
    unfold titleIndex. rewrite (indexOf_notin _ _ Hnt). simpl negb. cbv iota.
    assert (Hc : connect t (subs (run_state releaseMouse_ s)) = subs s ++ [t]).
    { unfold connect. rewrite Hs. destruct (existsb (Nat.eqb t) (subs s)) eqn:E; [|reflexivity].
      apply existsb_exists in E as [y [Hy Ey]]. apply Nat.eqb_eq in Ey. subst. contradiction. }
    destruct (currentTitle (run_state releaseMouse_ s)); simpl; rewrite Ht, Hc; auto. }
  destruct H1 as [H1t H1s].
  set (s1 := run_state (insertTitle index t) s) in *.
  unfold titleCount in Hn, j.
  set (jn := Z.to_nat (Z.max 0 (Z.min j (Z.of_nat (length (titles s)))))).
  assert (Hjn : (jn <= length (titles s))%nat) by lia.
  assert (Hsplit : titles s1 = firstn jn (titles s) ++ t :: skipn jn (titles s)) by exact H1t.
  assert (Hk : nth_error (titles s1) jn = Some t).
  { rewrite Hsplit, nth_error_app2 by (rewrite firstn_skipn_length_le; lia).
    rewrite firstn_skipn_length_le by lia. now rewrite Nat.sub_diag. }
  assert (Hidx : titleIndex s1 t = Z.of_nat jn).
  { unfold titleIndex. rewrite Hsplit, indexOf_app_notin.
    - now rewrite firstn_skipn_length_le.
    - exact (notin_firstn _ _ _ Hnt). }
  assert (Heq : run_state (removeTitle t) s1 = run_state (removeTitleAt (titleIndex s1 t)) s1)
    by (unfold run_state; now rewrite removeTitle_eq).
  rewrite Heq.
  destruct (removeTitleAt_at (titleIndex s1 t) s1 jn t) as [Hr Hrs];
    [rewrite Hidx; apply toInt32_small; lia|exact Hk|].
  rewrite Hr, Hrs, H1s. split.
  - rewrite Hsplit. rewrite firstn_app, skipn_app.
    rewrite firstn_skipn_length_le by lia. rewrite Nat.sub_diag, firstn_firstn.
    replace (S jn - jn)%nat with 1%nat by lia.
    rewrite (skipn_all2 (firstn jn (titles s))) by (rewrite firstn_skipn_length_le; lia).
    rewrite Nat.min_id. simpl. rewrite app_nil_r. apply firstn_skipn.
  - unfold disconnect. rewrite filter_app. simpl. rewrite Nat.eqb_refl. simpl.
    rewrite app_nil_r. exact (disconnect_notin _ _ Hns).
Qed.

(** Witness for X12: inserting [C] at index 1 of [A, B], then removing it. *)
Lemma insert_remove_roundtrip_witness :
  titles (run_state (insertTitle 1 titleC ;; removeTitle titleC) barAB) = titles barAB.
Proof.
  assert (H1 : ~ In titleC (titles barAB)) by (vm_compute; intros [H|[H|[]]]; discriminate).
  assert (H2 : ~ In titleC (subs barAB)) by (vm_compute; intros [H|[H|[]]]; discriminate).
  assert (H3 : titleCount barAB < 2 ^ 31) by (apply Z.ltb_lt; vm_compute; reflexivity).
  exact (proj1 (insert_remove_roundtrip 1 titleC barAB H1 H2 H3)).
Defined.

Lemma addTitle_eq : forall t s, addTitle t s = insertTitle (titleCount s) t s.
Proof.
  intros t s. unfold addTitle, bind, get.
  destruct (insertTitle _ t s) as [[r s'] o]. reflexivity.
Qed.

Lemma titleAt_last : forall s l t,
  titles s = l ++ [t] ->
  titleAt s (titleCount s - 1) = Some t /\ titleCount s = Z.of_nat (length l) + 1.
Proof.
  intros s l t H. unfold titleAt, titleCount. rewrite H, length_app. simpl.
  replace (Z.of_nat (length l + 1) - 1) with (Z.of_nat (length l)) by lia.
  rewrite at_nat, nth_error_app2, Nat.sub_diag by lia. split; [reflexivity|lia].
Qed.

(** X13. [addTitle] leaves the title in the last slot: a new title is
    appended, and an existing title is moved to the end without changing
    the count (for fewer than 2^31 titles, so that the count survives the
    [| 0] conversion). *)
Theorem addTitle_last : forall t s,
  titleCount s < 2 ^ 31 ->
  let s' := run_state (addTitle t) s in
  titleAt s' (titleCount s' - 1) = Some t /\
  titleCount s' = titleCount s + (if in_dec Nat.eq_dec t (titles s) then 0 else 1).
Proof.
  intros t s Hn. cbv zeta. unfold run_state. rewrite addTitle_eq, insertTitle_eq. cbv zeta.
  rewrite titleIndex_release, titleCount_release.
  destruct (releaseMouse_frame s) as [Ht _].
  set (s1 := run_state releaseMouse_ s) in *.
  unfold titleCount in Hn |- *.
  rewrite toInt32_small by lia. rewrite Z.min_id, Z.max_r by lia. rewrite Z.eqb_refl.
  destruct (in_dec Nat.eq_dec t (titles s)) as [Hin|Hnin].
  - assert (Hne : titleIndex s t <> -1) by (intro E; exact (indexOf_in _ _ E Hin)).
    destruct (indexOf_nth _ _ Hne) as [k [Hk Hkt]]. fold (titleIndex s t) in Hk.
    assert (Hlt : (k < length (titles s))%nat) by (apply nth_error_Some; congruence).
    rewrite Hk. destruct (Z.eqb_spec (Z.of_nat k) (-1)); [lia|]. simpl negb. cbv iota.
    destruct (Z.eqb_spec (Z.of_nat k) (Z.of_nat (length (titles s)) - 1)) as [E|E]; simpl.
    + assert (Hl := nth_error_split_at _ _ _ Hkt).
      rewrite (skipn_all2 (titles s)) in Hl by lia.
      destruct (titleAt_last s1 (firstn k (titles s)) t) as [H1 H2]; [rewrite Ht; exact Hl|].
      assert (Hf := firstn_skipn_length_le (titles s) k (Nat.lt_le_incl _ _ Hlt)).
      unfold titleCount in H1, H2. split; [exact H1|lia].
    + rewrite Ht, (arrays_move_spec _ _ _ _ Hkt) by lia. cbv zeta.
      set (rest := firstn k (titles s) ++ skipn (S k) (titles s)).
      assert (Hr : length rest = (length (titles s) - 1)%nat)
        by (unfold rest; rewrite length_app, length_skipn, firstn_skipn_length_le; lia).
      rewrite firstn_all2, skipn_all2 by lia.
      destruct (titleAt_last (set_updateRequested true (set_dirty true
                  (set_titles (rest ++ [t]) s1))) rest t) as [H1 H2]; [reflexivity|].
      unfold titleCount in H1, H2. simpl in H1, H2 |- *. split; [exact H1|lia].
  - unfold titleIndex. rewrite (indexOf_notin _ _ Hnin). simpl negb. cbv iota.
    assert (Ha : arrays_insert (titles s1) (Z.of_nat (length (titles s))) t = titles s ++ [t]).
    { unfold arrays_insert. rewrite Ht, Z.min_id, Z.max_r, Nat2Z.id by lia.
      now rewrite firstn_all, skipn_all. }
    destruct (currentTitle s1);
      (match goal with |- context [titleAt ?s' _] =>
         destruct (titleAt_last s' (titles s) t) as [H1 H2]; [simpl; exact Ha|] end);
      unfold titleCount in H1, H2; simpl in H1, H2 |- *; (split; [exact H1|lia]).
Qed.

(** Witness for X13: adding [C] to [A, B]. *)
Lemma addTitle_last_witness :
  titleAt (run_state (addTitle titleC) barAB)
    (titleCount (run_state (addTitle titleC) barAB) - 1) = Some titleC.
Proof.
  assert (Hn : titleCount barAB < 2 ^ 31) by (apply Z.ltb_lt; vm_compute; reflexivity).
  exact (proj1 (addTitle_last titleC barAB Hn)).
Defined.

Lemma existsb_string_in : forall x l, existsb (String.eqb x) l = true <-> In x l.
Proof.
  intros x l. rewrite existsb_exists. split.
  - intros [y [Hy E]]. apply String.eqb_eq in E. now subst.
  - intros H. exists x. split; [exact H|apply String.eqb_refl].
Qed.

Lemma in_dedup : forall l seen x,
  In x (dedupTokens seen l) <-> In x l /\ ~ In x seen.
Proof.
  induction l as [|y l IH]; intros seen x; simpl; [tauto|].
  destruct (existsb (String.eqb y) seen) eqn:E.
  - apply existsb_string_in in E. rewrite IH.
    destruct (string_dec y x) as [->|Hne]; [tauto|]. intuition congruence.
  - rewrite <- not_true_iff_false, existsb_string_in in E. simpl. rewrite IH. simpl.
    destruct (string_dec y x) as [->|Hne]; intuition congruence.
Qed.

Lemma in_parse : forall str x, In x (parseClassName str) <-> In x (splitTokens EmptyString str).
Proof. intros str x. unfold parseClassName. rewrite in_dedup. simpl. tauto. Qed.

Lemma append_empty_r : forall a, String.append a EmptyString = a.
Proof. induction a as [|c a IH]; simpl; [reflexivity|now rewrite IH]. Qed.

Lemma splitTokens_sep : forall a cur b,
  splitTokens cur (String.append a (String " "%char b)) =
  splitTokens cur a ++ splitTokens EmptyString b.
Proof.
  induction a as [|c a IH]; intros cur b; simpl; [reflexivity|].
  destruct (isAsciiWhitespace c); rewrite IH; [apply app_assoc|reflexivity].
Qed.

Lemma updateTabNode_classes : forall node a x,
  In x (tv_classes (updateTabNode node a)) <->
  x = TAB_CLASS \/ In x (splitTokens EmptyString (ta_className a)) \/
  (ta_closable a = true /\ x = CLOSABLE_CLASS).
Proof.
  intros node a x. unfold updateTabNode. cbn [tv_classes]. rewrite in_parse.
  assert (Htab : splitTokens EmptyString TAB_CLASS = [TAB_CLASS]) by reflexivity.
  assert (Hcl : splitTokens EmptyString CLOSABLE_CLASS = [CLOSABLE_CLASS]) by reflexivity.
  destruct (String.eqb_spec (ta_className a) EmptyString) as [E|E]; [rewrite E|];
    destruct (ta_closable a); cbn [String.append];
    rewrite ?splitTokens_sep, ?append_empty_r, Htab, ?Hcl; simpl;
    rewrite ?in_app_iff; simpl; intuition congruence.
Qed.

Lemma in_classList_add : forall c l x, In x (classList_add c l) <-> In x l \/ x = c.
Proof.
  intros c l x. unfold classList_add. destruct (existsb (String.eqb c) l) eqn:E.
  - apply existsb_string_in in E. intuition congruence.
  - rewrite in_app_iff. simpl. intuition congruence.
Qed.

Lemma in_classList_remove : forall c l x, In x (classList_remove c l) <-> In x l /\ x <> c.
Proof.
  intros c l x. unfold classList_remove. rewrite filter_In.
  destruct (String.eqb_spec x c); simpl; intuition congruence.
Qed.

Lemma zOrderLoop_some : forall ts nodes count cur i0,
  (length ts <= length nodes)%nat ->
  exists res, zOrderLoop count cur i0 ts nodes = Some res /\ length res = length nodes /\
  (forall k t n, nth_error ts k = Some t -> nth_error nodes k = Some n ->
     nth_error res k = Some (zOrderNode count cur (i0 + k) t n)) /\
  (forall k, (length ts <= k)%nat -> nth_error res k = nth_error nodes k).
Proof.
  induction ts as [|t ts IH]; intros nodes count cur i0 H; simpl.
  - exists nodes. repeat split; intros [|k]; simpl; discriminate.
  - destruct nodes as [|n nodes]; simpl in H; [lia|].
    destruct (IH nodes count cur (S i0)) as [res [E [Hl [Hn Hr]]]]; [lia|].
    rewrite E. eexists. split; [reflexivity|]. split; [simpl; lia|]. split.
    + intros [|k] t' n' Ht Hn'; simpl in *.
      * rewrite Nat.add_0_r. congruence.
      * rewrite (Hn k t' n' Ht Hn'). do 2 f_equal. lia.
    + intros [|k] Hk; simpl in *; [lia|]. apply Hr. lia.
Qed.

Lemma zOrderLoop_none : forall ts nodes count cur i0,
  (length nodes < length ts)%nat -> zOrderLoop count cur i0 ts nodes = None.
Proof.
  induction ts as [|t ts IH]; intros nodes count cur i0 H; simpl in *; [lia|].
  destruct nodes as [|n nodes]; [reflexivity|]. simpl in H.
  rewrite IH by lia. reflexivity.
Qed.

Lemma nth_error_combine' : forall {A B} (l1 : list A) (l2 : list B) i,
  nth_error (combine l1 l2) i =
  match nth_error l1 i, nth_error l2 i with
  | Some a, Some b => Some (a, b)
  | _, _ => None
  end.
Proof.
  intros A B l1; induction l1 as [|x l1 IH]; intros [|y l2] [|i]; simpl; auto.
  destruct (nth_error l1 i); reflexivity.
Qed.

Lemma filled_nth : forall (nodes : list TabView) count i d,
  (i < count)%nat ->
  nth_error (firstn count nodes ++ repeat d (count - length (firstn count nodes))) i =
  Some (nth i nodes d).
Proof.
  induction nodes as [|x nodes IH]; intros count i d H.
  - rewrite firstn_nil. simpl. rewrite Nat.sub_0_r, nth_error_repeat by exact H.
    destruct i; reflexivity.
  - destruct count as [|count]; [lia|]. simpl.
    destruct i as [|i]; [reflexivity|]. simpl. apply IH. lia.
Qed.

Lemma filled_length : forall (nodes : list TabView) count d,
  length (firstn count nodes ++ repeat d (count - length (firstn count nodes))) = count.
Proof.
  intros nodes count d. rewrite length_app, repeat_length, length_firstn. lia.
Qed.

Lemma updateTabs_spec : forall attrs s nodes,
  exists res, updateTabs attrs s nodes = Some res /\ length res = length (titles s) /\
  forall i t, nth_error (titles s) i = Some t ->
    nth_error res i =
    Some (zOrderNode (titleCount s) (currentTitle s) i t
            (updateTabNode (nth i nodes createTabNode) (attrs t))).
Proof.
  intros attrs s nodes. unfold updateTabs, updateZOrder. cbv zeta.
  set (filled := firstn (length (titles s)) nodes ++
                 repeat createTabNode (length (titles s) - length (firstn (length (titles s)) nodes))).
  set (updated := map (fun '(n, t) => updateTabNode n (attrs t)) (combine filled (titles s))).
  assert (Hfl : length filled = length (titles s)) by apply filled_length.
  assert (Hul : length updated = length (titles s)).
  { unfold updated. rewrite length_map, length_combine, Hfl. apply Nat.min_id. }
  destruct (zOrderLoop_some (titles s) updated (titleCount s) (currentTitle s) O)
    as [res [E [Hl [Hn _]]]]; [lia|].
  exists res. split; [exact E|]. split; [congruence|].
  intros i t Ht. apply Hn; [exact Ht|].
  assert (Hi : (i < length (titles s))%nat) by (apply nth_error_Some; congruence).
  unfold updated. rewrite nth_error_map, nth_error_combine', Ht.
  unfold filled. rewrite filled_nth by exact Hi. reflexivity.
Qed.

(** X15. An update request on a dirty bar rebuilds the tab nodes: one node
    per title, existing nodes reused in place, each showing its title's
    text, carrying the tab class, the title's own classes and the closable
    class when the title is closable, the current class exactly on the
    current title, and a z-index putting the current tab on top and the
    others in decreasing order; the bar is no longer dirty. *)
Theorem onUpdateRequest_renders : forall attrs s nodes,
  dirty s = true ->
  exists nodes', onUpdateRequest attrs s nodes = Some (set_dirty false s, nodes') /\
  length nodes' = length (titles s) /\
  forall i t, nth_error (titles s) i = Some t ->
  exists v, nth_error nodes' i = Some v /\
    tv_text v = ta_text (attrs t) /\
    tv_textClasses v = tv_textClasses (nth i nodes createTabNode) /\
    tv_closeClasses v = tv_closeClasses (nth i nodes createTabNode) /\
    (In CURRENT_CLASS (tv_classes v) <-> currentTitle s = Some t) /\
    (forall x, x <> CURRENT_CLASS ->
       (In x (tv_classes v) <->
        x = TAB_CLASS \/ In x (splitTokens EmptyString (ta_className (attrs t))) \/
        (ta_closable (attrs t) = true /\ x = CLOSABLE_CLASS))) /\
    tv_zIndex v = Some (if opt_eqb (Some t) (currentTitle s) then titleCount s
                        else titleCount s - Z.of_nat i - 1).
Proof.
  intros attrs s nodes Hd. unfold onUpdateRequest. rewrite Hd.
  destruct (updateTabs_spec attrs s nodes) as [res [E [Hl Hn]]]. rewrite E.
  exists res. split; [reflexivity|]. split; [exact Hl|].
  intros i t Ht. rewrite (Hn i t Ht). eexists. split; [reflexivity|].
  unfold zOrderNode. destruct (opt_eqb (Some t) (currentTitle s)) eqn:Eq.
  - apply opt_eqb_eq in Eq. cbn [tv_text tv_textClasses tv_closeClasses tv_classes tv_zIndex].
    split; [reflexivity|]. split; [reflexivity|]. split; [reflexivity|].
    split; [rewrite in_classList_add; split; [intros _; congruence|intros _; now right]|].
    split; [|reflexivity].
    intros x Hx. rewrite in_classList_add, updateTabNode_classes. intuition.
  - cbn [tv_text tv_textClasses tv_closeClasses tv_classes tv_zIndex].
    split; [reflexivity|]. split; [reflexivity|]. split; [reflexivity|].
    split.
    + rewrite in_classList_remove. split; [intros [_ H]; contradiction|].
      intros H. rewrite H in Eq. simpl in Eq. now rewrite Nat.eqb_refl in Eq.
    + split; [|reflexivity].
      intros x Hx. rewrite in_classList_remove, updateTabNode_classes. intuition.
Qed.

(** Witness for X15: rendering the (dirty) bar [A, B] from no nodes. *)
Lemma onUpdateRequest_renders_witness :
  exists nodes', onUpdateRequest (fun _ => mkTitleAttrs "x"%string EmptyString EmptyString false)
                   barAB [] = Some (set_dirty false barAB, nodes') /\ length nodes' = 2%nat.
Proof.
  destruct (onUpdateRequest_renders (fun _ => mkTitleAttrs "x"%string EmptyString EmptyString false)
              barAB [] eq_refl) as [n [H1 [H2 _]]].
  exists n. split; [exact H1|]. rewrite H2. reflexivity.
Defined.

(** X16. The rebuild of [updateTabs] is idempotent: running it again on
    the nodes it produced gives the same nodes. *)
Theorem updateTabs_idempotent : forall attrs s nodes,
  exists res, updateTabs attrs s nodes = Some res /\ updateTabs attrs s res = Some res.
Proof.
  intros attrs s nodes.
  destruct (updateTabs_spec attrs s nodes) as [res [E [Hl Hn]]].
  destruct (updateTabs_spec attrs s res) as [res2 [E2 [Hl2 Hn2]]].
  exists res. split; [exact E|]. rewrite E2. f_equal. apply nth_error_ext. intros i.
  destruct (nth_error (titles s) i) as [t|] eqn:Ht.
  - rewrite (Hn2 i t Ht), (Hn i t Ht).
    rewrite (nth_error_nth res i createTabNode (Hn i t Ht)).
    unfold zOrderNode. destruct (opt_eqb (Some t) (currentTitle s)); reflexivity.
  - apply nth_error_None in Ht.
    rewrite (proj2 (nth_error_None res2 i)), (proj2 (nth_error_None res i)) by lia.
    reflexivity.
Qed.

(** X17. An update request on a clean bar only updates the Z order: with
    fewer nodes than titles it throws; otherwise each node keeps its text,
    icon, spans and classes other than the current class, the current class
    is set exactly on the current title's node and the z-indices are
    rewritten; nodes beyond the titles are untouched. *)
Theorem onUpdateRequest_clean : forall attrs s nodes,
  dirty s = false ->
  ((length nodes < length (titles s))%nat -> onUpdateRequest attrs s nodes = None) /\
  ((length (titles s) <= length nodes)%nat ->
   exists nodes', onUpdateRequest attrs s nodes = Some (s, nodes') /\
   length nodes' = length nodes /\
   forall i n, nth_error nodes i = Some n ->
   exists v, nth_error nodes' i = Some v /\
     tv_text v = tv_text n /\ tv_iconClasses v = tv_iconClasses n /\
     tv_textClasses v = tv_textClasses n /\ tv_closeClasses v = tv_closeClasses n /\
     (forall x, x <> CURRENT_CLASS -> (In x (tv_classes v) <-> In x (tv_classes n))) /\
     match nth_error (titles s) i with
     | Some t =>
         (In CURRENT_CLASS (tv_classes v) <-> currentTitle s = Some t) /\
         tv_zIndex v = Some (if opt_eqb (Some t) (currentTitle s) then titleCount s
                             else titleCount s - Z.of_nat i - 1)
     | None => v = n
     end).
Proof.
  intros attrs s nodes Hd. unfold onUpdateRequest, updateZOrder. rewrite Hd. split.
  - intros Hlt. rewrite zOrderLoop_none by exact Hlt. reflexivity.
  - intros Hle.
    destruct (zOrderLoop_some (titles s) nodes (titleCount s) (currentTitle s) O Hle)
      as [res [E [Hl [Hn Hr]]]].
    rewrite E. exists res. split; [reflexivity|]. split; [exact Hl|].
    intros i n Hi. destruct (nth_error (titles s) i) as [t|] eqn:Ht.
    + rewrite (Hn i t n Ht Hi). eexists. split; [reflexivity|].
      unfold zOrderNode. simpl (0 + i)%nat.
      destruct (opt_eqb (Some t) (currentTitle s)) eqn:Eq;
        cbn [tv_text tv_iconClasses tv_textClasses tv_closeClasses tv_classes tv_zIndex];
        (split; [reflexivity|]); (split; [reflexivity|]); (split; [reflexivity|]);
        (split; [reflexivity|]).
      * apply opt_eqb_eq in Eq. split.
        -- intros x Hx. rewrite in_classList_add. intuition.
        -- split; [|reflexivity]. rewrite in_classList_add.
           split; [intros _; congruence|intros _; now right].
      * split.
        -- intros x Hx. rewrite in_classList_remove. intuition.
        -- split; [|reflexivity]. rewrite in_classList_remove.
           split; [intros [_ H]; contradiction|].
           intros H. rewrite H in Eq. simpl in Eq. now rewrite Nat.eqb_refl in Eq.
    + rewrite Hr by (apply nth_error_None; exact Ht). exists n.
      split; [exact Hi|]. repeat split; tauto.
Qed.

(** Witness for X17: a clean bar [A, B] with no nodes makes the pass throw. *)
Lemma onUpdateRequest_clean_witness :
  onUpdateRequest (fun _ => mkTitleAttrs EmptyString EmptyString EmptyString false)
    (set_dirty false barAB) [] = None.
Proof.
  apply (proj1 (onUpdateRequest_clean (fun _ => mkTitleAttrs EmptyString EmptyString EmptyString false)
                  (set_dirty false barAB) [] eq_refl)).
  vm_compute. constructor. constructor.
Defined.

(** X18. A change of any title marks the bar dirty and requests an update
    without output, so the next update request rebuilds every node from the
    titles' current attributes. *)
Theorem titleChanged_rerenders : forall attrs s nodes,
  let s1 := run_state onTitleChanged s in
  run_log onTitleChanged s = [] /\ updateRequested s1 = true /\
  exists nodes', onUpdateRequest attrs s1 nodes = Some (set_dirty false s1, nodes') /\
                 updateTabs attrs s nodes = Some nodes'.
Proof.
  intros attrs s nodes. cbv zeta.
  assert (E : run_state onTitleChanged s = set_updateRequested true (set_dirty true s))
    by reflexivity.
  rewrite E. split; [reflexivity|]. split; [reflexivity|].
  destruct (updateTabs_spec attrs s nodes) as [res [E2 _]].
  exists res. unfold onUpdateRequest. cbn [dirty set_updateRequested set_dirty].
  change (updateTabs attrs (set_updateRequested true (set_dirty true s)) nodes)
    with (updateTabs attrs s nodes).
  rewrite E2. split; reflexivity.
Qed.
